(** * codeintel-code-complexity-analyzer: main.py

    A shallow embedding of [src/main.py], the command-line wrapper around
    radon's cyclomatic-complexity visitor and raw-metrics analyzer, and the
    properties of its specification.

    Modelling conventions.
    - Python [int] is [Z]; [str] is [string]; a list is a [list].
    - The program's effects (reading the file, calling into [ast] and
      [radon], [print], [logging]) are recorded, in program order, in a
      trace of events carried by a small writer-and-exception monad.
    - The standard library's [ast] module, radon and the file system are
      not code of this repository: they are the fields of the class
      [Externals] and the file system [fs], over which everything is
      parametric.  A call either returns a value or raises an exception of
      class [Exception]; signals deriving from [BaseException] only
      ([KeyboardInterrupt]) are not errors of the analysis and are outside
      the model.
    - [argparse] scans the command line; what it found is a [cmdline].  The
      declarations of [setup_argparse] (defaults, [store_true]) are
      modelled, the scanner's token syntax is not. *)

From Stdlib Require Import ZArith List String Ascii Bool Lia.
From Stdlib Require Import DecimalString.
Import ListNotations.

Local Open Scope string_scope.
Local Open Scope Z_scope.
Local Open Scope list_scope.


(** ** Python values *)

(** [str(n)] for an [int]: the decimal numeral, with a minus sign when
    negative. *)
Definition str_of_int (n : Z) : string := NilZero.string_of_int (Z.to_int n).

(** An f-string is the concatenation of its pieces. *)
Definition fstring (pieces : list string) : string := String.concat "" pieces.

(** ** Exceptions

    The exception classes the handlers of [main.py] tell apart.  Each
    carries [str(e)]. *)
Inductive exception : Type :=
| FileNotFoundError (msg : string)
| SyntaxError (msg : string)
| OtherException (msg : string).

Definition str_of_exception (e : exception) : string :=
  match e with
  | FileNotFoundError m | SyntaxError m | OtherException m => m
  end.

(** [sys.exit(code)] raises [SystemExit], which no handler of the program
    catches. *)
Inductive system_exit : Type := SystemExit (code : Z).

(** ** The syntax tree of the [ast] module

    Nodes carry their position attributes.  The usual statement classes
    with a nested statement list have a constructor of their own; every
    other class ([Assign], [Expr], [Return], [Match], ...) is a [Simple]
    with its class name and its source text.  The program looks at the
    class of the top-level statements only. *)
Record position : Type := Position {
  lineno : Z;
  col_offset : Z;
  end_lineno : Z;
  end_col_offset : Z
}.

Record alias : Type := Alias {
  alias_name : string;
  asname : option string
}.

#[warnings="-register-all"]
Inductive stmt : Type :=
| Import (names : list alias) (pos : position)
| ImportFrom (module : option string) (names : list alias) (level : Z)
    (pos : position)
| FunctionDef (name : string) (body : list stmt) (pos : position)
| AsyncFunctionDef (name : string) (body : list stmt) (pos : position)
| ClassDef (name : string) (body : list stmt) (pos : position)
| If (test : string) (body orelse : list stmt) (pos : position)
| For (target iter : string) (body orelse : list stmt) (pos : position)
| While (test : string) (body orelse : list stmt) (pos : position)
| With (items : list string) (body : list stmt) (pos : position)
| Try (body : list stmt) (handlers : list (list stmt))
    (orelse finalbody : list stmt) (pos : position)
| Simple (class_name : string) (source : string) (pos : position).

(** [ast.Module]: the top-level statement list and the type-ignore
    comments. *)
Record Module_ : Type := MkModule {
  mod_body : list stmt;
  type_ignores : list string
}.

(** [tree.body = new_body] *)
Definition set_body (tree : Module_) (new_body : list stmt) : Module_ :=
  {| mod_body := new_body; type_ignores := type_ignores tree |}.

(** [isinstance(node, (ast.Import, ast.ImportFrom))] *)
Definition is_import (node : stmt) : bool :=
  match node with
  | Import _ _ | ImportFrom _ _ _ _ => true
  | _ => false
  end.

(** ** radon's results *)

(** The attributes of a [Function] or [Class] block that the program
    reads. *)
Record block : Type := Block {
  blk_name : string;
  blk_complexity : Z;
  blk_lineno : Z;
  blk_endline : Z
}.

(** The [Module] named tuple of [radon.raw.analyze]. *)
Record raw_module : Type := RawModule {
  loc : Z;
  lloc : Z;
  sloc : Z;
  comments : Z;
  multi : Z;
  blank : Z;
  single_comments : Z
}.

(** A complexity entry is the tuple [(name, complexity, lineno, endline)]. *)
Definition entry : Type := (string * Z * Z * Z)%type.

Definition entry_of_block (res : block) : entry :=
  (blk_name res, blk_complexity res, blk_lineno res, blk_endline res).

Definition entry_complexity (e : entry) : Z :=
  let '(_, complexity, _, _) := e in complexity.

(** ** Effects *)

Inductive levelname : Type := ERROR | INFO.

Inductive event : Type :=
| EvOpenRead (filepath : string)
| EvAstParse (code : string)
| EvAstUnparse (tree : Module_)
| EvCcVisit (code : string)
| EvRawAnalyze (code : string)
| EvPrint (text : string)
| EvLog (level : levelname) (msg : string).

(** A computation that may raise an [E]: the events it performed, then the
    exception or the value. *)
Definition M (E A : Type) : Type := (list event * (E + A))%type.

Definition ret {E A} (a : A) : M E A := ([], inr a).

Definition raise {E A} (e : E) : M E A := ([], inl e).

Definition bind {E A B} (m : M E A) (k : A -> M E B) : M E B :=
  match m with
  | (t, inl e) => (t, inl e)
  | (t, inr a) => let (t', r) := k a in (t ++ t', r)
  end.

(** [try: m  except E as e: h e] where the handler may raise an [E']. *)
Definition try_except {E E' A} (m : M E A) (h : E -> M E' A) : M E' A :=
  match m with
  | (t, inl e) => let (t', r) := h e in (t ++ t', r)
  | (t, inr a) => (t, inr a)
  end.

(** Perform an external call: record it and return or raise its outcome. *)
Definition call {E A} (ev : event) (outcome : E + A) : M E A := ([ev], outcome).

Definition print {E} (text : string) : M E unit := ([EvPrint text], inr tt).

Definition logging_error {E} (msg : string) : M E unit :=
  ([EvLog ERROR msg], inr tt).

Definition logging_info {E} (msg : string) : M E unit :=
  ([EvLog INFO msg], inr tt).

Declare Scope monad_scope.
Delimit Scope monad_scope with monad.
Notation "x <- m ;; k" := (bind m (fun x => k))
  (at level 61, m at next level, right associativity) : monad_scope.
Notation "m ;;; k" := (bind m (fun _ => k))
  (at level 61, right associativity) : monad_scope.
Local Open Scope monad_scope.

(** [for x in xs: body x] *)
Fixpoint for_each {E A} (xs : list A) (body : A -> M E unit) : M E unit :=
  match xs with
  | [] => ret tt
  | x :: xs' => body x ;;; for_each xs' body
  end.

Definition trace {E A} (m : M E A) : list event := fst m.
Definition outcome {E A} (m : M E A) : E + A := snd m.

(** What reached standard output: the argument of each [print], in order. *)
Definition stdout (t : list event) : list string :=
  flat_map (fun ev => match ev with EvPrint s => [s] | _ => [] end) t.

(** The records handed to [logging], in order. *)
Definition log_records (t : list event) : list (levelname * string) :=
  flat_map (fun ev => match ev with EvLog l m => [(l, m)] | _ => [] end) t.

(** The calls into the analysis stage: file reads and library calls. *)
Definition is_analysis_event (ev : event) : bool :=
  match ev with
  | EvPrint _ | EvLog _ _ => false
  | _ => true
  end.

Definition analysis_events (t : list event) : list event :=
  filter is_analysis_event t.

(** ** The external collaborators *)

Class Externals : Type := {
  (** [ast.parse(code)] *)
  ast_parse : string -> exception + Module_;
  (** [ast.unparse(tree)] *)
  ast_unparse : Module_ -> exception + string;
  (** [radon.complexity.cc_visit(code)] *)
  cc_visit : string -> exception + list block;
  (** [radon.raw.analyze(code)] *)
  raw_analyze : string -> exception + raw_module
}.

(** The file system: what [open(path, "r", encoding="utf-8").read()] gives
    for a path. *)
Definition filesystem : Type := string -> exception + string.

(** ** The program *)

(** The newline character of the string literals. *)
Definition nl : string := String "010"%char EmptyString.

(** The [Namespace] returned by [parser.parse_args()]. *)
Record Namespace : Type := MkNamespace {
  filepath : string;
  threshold : Z;
  report_raw : bool;
  include_imports : bool
}.

(** What the scanner of [argparse] found on the command line: the
    positional argument, the converted value of [--threshold] when the
    option is present, and which flags are present. *)
Record supplied : Type := Supplied {
  given_filepath : string;
  given_threshold : option Z;
  given_report_raw : bool;
  given_include_imports : bool
}.

(** A command line either makes [parse_args] leave the process itself
    ([--help] with code 0, a usage error with code 2) or is scanned. *)
Inductive cmdline : Type :=
| Leaves (code : Z)
| Scanned (s : supplied).

(** Truth value of a list or dict: non-empty. *)
Definition truthy {A} (xs : list A) : bool :=
  match xs with [] => false | _ :: _ => true end.

Definition sys_exit {A} (code : Z) : M system_exit A := raise (SystemExit code).

(** The status the process ends with. *)
Definition exit_code {A} (m : M system_exit A) : Z :=
  match outcome m with
  | inl (SystemExit code) => code
  | inr _ => 0
  end.

(** Lines 12-38.  [--threshold] has [type=int, default=10]; the two flags
    are [store_true], hence [False] when absent. *)
Definition setup_argparse (cl : cmdline) : M system_exit Namespace :=
  match cl with
  | Leaves code => sys_exit code
  | Scanned s =>
      ret {| filepath := given_filepath s;
             threshold := match given_threshold s with
                          | Some n => n
                          | None => 10
                          end;
             report_raw := given_report_raw s;
             include_imports := given_include_imports s |}
  end.

(** Lines 60-63: the loop that collects the nodes to keep. *)
Definition collect_non_imports (body : list stmt) : list stmt :=
  fold_left
    (fun new_body node =>
       if negb (is_import node) then new_body ++ [node] else new_body)
    body [].

Section Program.

Context {ext : Externals}.
Variable fs : filesystem.

(** Lines 54-55 and 92-93. *)
Definition open_read (path : string) : M exception string :=
  call (EvOpenRead path) (fs path).

(** Lines 57-65: the text handed to the complexity visitor. *)
Definition strip_imports (include_imports : bool) (code : string)
    : M exception string :=
  if negb include_imports then
    tree <- call (EvAstParse code) (ast_parse code) ;;
    let new_body := collect_non_imports (mod_body tree) in
    let tree := set_body tree new_body in
    call (EvAstUnparse tree) (ast_unparse tree)
  else ret code.

(** Lines 54-68: the body of the [try]. *)
Definition cyclomatic_complexity_body (filepath : string)
    (include_imports : bool) : M exception (list entry) :=
  code <- open_read filepath ;;
  code <- strip_imports include_imports code ;;
  results <- call (EvCcVisit code) (cc_visit code) ;;
  ret (map entry_of_block results).

(** Lines 70-78: the handlers. *)
Definition cyclomatic_complexity_handler {E} (filepath : string)
    (e : exception) : M E (list entry) :=
  match e with
  | FileNotFoundError _ =>
      logging_error (fstring ["File not found: "; filepath]) ;;; ret []
  | SyntaxError _ =>
      logging_error
        (fstring ["Syntax error in "; filepath; ": "; str_of_exception e]) ;;;
      ret []
  | OtherException _ =>
      logging_error
        (fstring ["An unexpected error occurred: "; str_of_exception e]) ;;;
      ret []
  end.

(** Lines 41-78. *)
Definition calculate_cyclomatic_complexity {E} (filepath : string)
    (include_imports : bool) : M E (list entry) :=
  try_except (cyclomatic_complexity_body filepath include_imports)
             (cyclomatic_complexity_handler filepath).

(** Lines 92-102: the body of the [try]; the dict keeps insertion order. *)
Definition raw_metrics_body (filepath : string)
    : M exception (list (string * Z)) :=
  code <- open_read filepath ;;
  metrics <- call (EvRawAnalyze code) (raw_analyze code) ;;
  ret [ ("sloc", sloc metrics);
        ("lloc", lloc metrics);
        ("comments", comments metrics);
        ("multi", multi metrics);
        ("blank", blank metrics);
        ("single_comments", single_comments metrics) ].

(** Lines 103-108: the handlers. *)
Definition raw_metrics_handler {E} (filepath : string) (e : exception)
    : M E (list (string * Z)) :=
  match e with
  | FileNotFoundError _ =>
      logging_error (fstring ["File not found: "; filepath]) ;;; ret []
  | SyntaxError _ | OtherException _ =>
      logging_error
        (fstring ["An unexpected error occurred: "; str_of_exception e]) ;;;
      ret []
  end.

(** Lines 81-108. *)
Definition calculate_raw_metrics {E} (filepath : string)
    : M E (list (string * Z)) :=
  try_except (raw_metrics_body filepath) (raw_metrics_handler filepath).

(** Lines 126-128: what is printed for one entry. *)
Definition entry_line (e : entry) : string :=
  let '(name, complexity, lineno, endline) := e in
  fstring ["  - "; name; " (lines "; str_of_int lineno; "-";
           str_of_int endline; "): Complexity = "; str_of_int complexity].

Definition warning_line (threshold : Z) : string :=
  fstring ["    Warning: Complexity exceeds threshold (";
           str_of_int threshold; ")!"].

Definition report_entry {E} (threshold : Z) (e : entry) : M E unit :=
  print (entry_line e) ;;;
  if entry_complexity e >? threshold then print (warning_line threshold)
  else ret tt.

(** Lines 123-129. *)
Definition report_complexity {E} (args : Namespace)
    (complexity_results : list entry) : M E unit :=
  if truthy complexity_results then
    print (fstring ["Code Complexity Analysis for "; filepath args; ":"; nl]) ;;;
    for_each complexity_results (report_entry (threshold args)) ;;;
    print nl
  else ret tt.

(** Lines 131-137. *)
Definition report_raw_metrics {E} (args : Namespace) : M E unit :=
  if report_raw args then
    raw_metrics <- calculate_raw_metrics (filepath args) ;;
    if truthy raw_metrics then
      print (fstring ["Raw Code Metrics:"; nl]) ;;;
      for_each raw_metrics
        (fun '(metric, value) =>
           print (fstring ["  - "; metric; ": "; str_of_int value])) ;;;
      print nl
    else ret tt
  else ret tt.

(** Lines 139-140. *)
Definition report_no_results {E} (args : Namespace)
    (complexity_results : list entry) : M E unit :=
  if negb (truthy complexity_results) && negb (report_raw args) then
    logging_info "No results to display."
  else ret tt.

(** Lines 116-119. *)
Definition validate_threshold (args : Namespace) : M system_exit unit :=
  if threshold args <=? 0 then
    logging_error "Complexity threshold must be a positive integer." ;;;
    sys_exit 1
  else ret tt.

(** Lines 121-140: what runs once the threshold is accepted. *)
Definition analyze_and_report {E} (args : Namespace) : M E unit :=
  complexity_results <-
    calculate_cyclomatic_complexity (filepath args) (include_imports args) ;;
  report_complexity args complexity_results ;;;
  report_raw_metrics args ;;;
  report_no_results args complexity_results.

(** Lines 110-140. *)
Definition main (cl : cmdline) : M system_exit unit :=
  args <- setup_argparse cl ;;
  validate_threshold args ;;;
  analyze_and_report args.

End Program.

(** ** The specification's import stripper

    Written from the words of the specification, to be compared with
    [collect_non_imports]: a top-level statement is an import when it has
    one of the two forms, and stripping removes every such statement and
    keeps all others, in order and untouched. *)
Inductive ImportStatement : stmt -> Prop :=
| import_form names pos : ImportStatement (Import names pos)
| from_import_form module names level pos :
    ImportStatement (ImportFrom module names level pos).

Inductive StripsImports : list stmt -> list stmt -> Prop :=
| strips_nil : StripsImports [] []
| strips_drop node body kept :
    ImportStatement node ->
    StripsImports body kept ->
    StripsImports (node :: body) kept
| strips_keep node body kept :
    ~ ImportStatement node ->
    StripsImports body kept ->
    StripsImports (node :: body) (node :: kept).

(** ** A concrete world

    The collaborators tabulated at a few inputs, with the outcomes that
    CPython's [ast] and radon give there; elsewhere the tables answer with
    an exception.  Used to run the program on concrete command lines. *)
Module Demo.

(** [import os], a blank line, and a function of two lines. *)
Definition with_import : string :=
  fstring ["import os"; nl; nl; "def f():"; nl; "    pass"; nl].

(** The same function under a comment and a blank line, no import. *)
Definition commented : string :=
  fstring ["# tool"; nl; nl; "def f():"; nl; "    pass"; nl].

Definition broken : string := fstring ["def f(:"; nl].

(** What [ast.unparse] renders for the function alone. *)
Definition rendered : string := fstring ["def f():"; nl; "    pass"].

Definition def_f : stmt :=
  FunctionDef "f" [Simple "Pass" "pass" (Position 4 4 4 8)] (Position 3 0 4 8).

Definition import_os : stmt :=
  Import [Alias "os" None] (Position 1 0 1 9).

Definition files : filesystem := fun path =>
  if (path =? "m.py")%string then inr with_import
  else if (path =? "plain.py")%string then inr commented
  else if (path =? "empty.py")%string then inr ""
  else if (path =? "bad.py")%string then inr broken
  else inl (FileNotFoundError
              (fstring ["[Errno 2] No such file or directory: '"; path; "'"])).

Definition parse (code : string) : exception + Module_ :=
  if (code =? with_import)%string then inr (MkModule [import_os; def_f] [])
  else if (code =? commented)%string then inr (MkModule [def_f] [])
  else if (code =? "")%string then inr (MkModule [] [])
  else inl (SyntaxError "invalid syntax (<unknown>, line 1)").

Definition unparse (tree : Module_) : exception + string :=
  match mod_body tree with
  | [] => inr ""
  | [FunctionDef name [Simple _ source _] _] =>
      inr (fstring ["def "; name; "():"; nl; "    "; source])
  | _ => inl (OtherException "maximum recursion depth exceeded")
  end.

Definition visit (code : string) : exception + list block :=
  if (code =? with_import)%string then inr [Block "f" 1 3 4]
  else if (code =? commented)%string then inr [Block "f" 1 3 4]
  else if (code =? rendered)%string then inr [Block "f" 1 1 2]
  else if (code =? "")%string then inr []
  else inl (SyntaxError "invalid syntax (<unknown>, line 1)").

Definition analyze (code : string) : exception + raw_module :=
  if (code =? with_import)%string then inr (RawModule 4 3 3 0 0 1 0)
  else if (code =? commented)%string then inr (RawModule 4 2 2 1 0 1 1)
  else if (code =? "")%string then inr (RawModule 0 0 0 0 0 0 0)
  else if (code =? broken)%string then inl (SyntaxError "SyntaxError at line: 1")
  else inl (OtherException "not tabulated").

#[export] Instance libraries : Externals := {
  ast_parse := parse;
  ast_unparse := unparse;
  cc_visit := visit;
  raw_analyze := analyze
}.

(** The command line [main.py <path>] with the given options. *)
Definition argv (path : string) (t : option Z) (raw imports : bool) : cmdline :=
  Scanned (Supplied path t raw imports).

End Demo.

(** ** Reading the output *)

(** The header that opens the raw-metrics part of standard output. *)
Definition raw_header : string := fstring ["Raw Code Metrics:"; nl].

(** The raw-metrics output of a run: standard output from that header on. *)
Fixpoint raw_section (out : list string) : list string :=
  match out with
  | [] => []
  | s :: rest => if (s =? raw_header)%string then s :: rest else raw_section rest
  end.

(** The messages of lines 71, 74 and 77, by the class of the exception. *)
Definition complexity_error_message (path : string) (e : exception) : string :=
  match e with
  | FileNotFoundError _ => fstring ["File not found: "; path]
  | SyntaxError msg => fstring ["Syntax error in "; path; ": "; msg]
  | OtherException msg => fstring ["An unexpected error occurred: "; msg]
  end.

(** The messages of lines 104 and 107. *)
Definition raw_error_message (path : string) (e : exception) : string :=
  match e with
  | FileNotFoundError _ => fstring ["File not found: "; path]
  | SyntaxError msg | OtherException msg =>
      fstring ["An unexpected error occurred: "; msg]
  end.



(** The message of line 140. *)
Definition no_results : event := EvLog INFO "No results to display.".

(** The outcome of line 117-119. *)
Definition rejected : M system_exit unit :=
  ([EvLog ERROR "Complexity threshold must be a positive integer."],
   inl (SystemExit 1)).

(** ** Measures on traces *)

(** How often the file at [path] is opened in a trace. *)
Definition reads_of (path : string) (t : list event) : nat :=
  List.length
    (filter (fun ev => match ev with
                       | EvOpenRead p => (p =? path)%string
                       | _ => false
                       end) t).

(** The header of the complexity report. *)
Definition complexity_header (path : string) : string :=
  fstring ["Code Complexity Analysis for "; path; ":"; nl].

(** What line 136 prints for one metric. *)
Definition metric_line (metric : string) (value : Z) : string :=
  fstring ["  - "; metric; ": "; str_of_int value].

(** ** Proof automation *)

(** Unfold a stage down to the outcomes of the collaborators and split on
    each of them. *)
Ltac split_outcomes :=
  repeat (simpl;
          match goal with
          | |- context [match ?x with _ => _ end] =>
              lazymatch x with
              | context [match _ with _ => _ end] => fail
              | String.eqb _ _ => fail
              | _ => destruct x
              end
          end);
  simpl.

Ltac run_stage :=
  unfold calculate_cyclomatic_complexity, cyclomatic_complexity_body,
    cyclomatic_complexity_handler, calculate_raw_metrics, raw_metrics_body,
    raw_metrics_handler, strip_imports, open_read, try_except, bind, call,
    logging_error, ret;
  split_outcomes.

(** * Properties *)

(** ** The loop of lines 60-63 *)

Lemma collect_from (body acc : list stmt) :
  fold_left
    (fun new_body node =>
       if negb (is_import node) then new_body ++ [node] else new_body)
    body acc
  = acc ++ filter (fun node => negb (is_import node)) body.
Proof.
  revert acc; induction body as [|node body IH]; intros acc; simpl.
  - now rewrite app_nil_r.
  - rewrite IH. destruct (is_import node); simpl; [reflexivity|].
    now rewrite <- app_assoc.
Qed.

Lemma collect_non_imports_filter (body : list stmt) :
  collect_non_imports body = filter (fun node => negb (is_import node)) body.
Proof. unfold collect_non_imports. now rewrite collect_from. Qed.

Lemma collect_non_imports_cons (node : stmt) (body : list stmt) :
  collect_non_imports (node :: body)
  = if is_import node then collect_non_imports body
    else node :: collect_non_imports body.
Proof.
  rewrite !collect_non_imports_filter; simpl. now destruct (is_import node).
Qed.

Lemma is_import_spec (node : stmt) :
  is_import node = true <-> ImportStatement node.
Proof.
  split.
  - destruct node; simpl; intros H; try discriminate H; constructor.
  - intros H; destruct H; reflexivity.
Qed.

Lemma not_import_spec (node : stmt) :
  is_import node = false <-> ~ ImportStatement node.
Proof.
  rewrite <- is_import_spec. destruct (is_import node); split; intros H;
    try reflexivity; try discriminate; try (intros H'; discriminate H').
  now contradiction H.
Qed.

Lemma collect_strips (body : list stmt) :
  StripsImports body (collect_non_imports body).
Proof.
  induction body as [|node body IH].
  - constructor.
  - rewrite collect_non_imports_cons. destruct (is_import node) eqn:Hn.
    + apply strips_drop; [now apply is_import_spec | exact IH].
    + apply strips_keep; [now apply not_import_spec | exact IH].
Qed.

Lemma StripsImports_functional (body kept kept' : list stmt) :
  StripsImports body kept -> StripsImports body kept' -> kept = kept'.
Proof.
  intros H; revert kept'; induction H as [|node body kept Hi _ IH|node body kept Hn _ IH];
    intros kept' H'; inversion H'; subst; try reflexivity;
    try (now apply IH); try contradiction.
  f_equal. now apply IH.
Qed.



(** ** Running the complexity stage *)

Section ComplexityStage.

Context {ext : Externals}.
Variable fs : filesystem.
Variable E : Type.

(** The handlers log one error record and return the empty list. *)
Lemma handler_logs_once (path : string) (e : exception) :
  exists msg,
    cyclomatic_complexity_handler (E := E) path e = ([EvLog ERROR msg], inr []).
Proof. destruct e; simpl; eexists; reflexivity. Qed.

Lemma raw_handler_logs_once (path : string) (e : exception) :
  exists msg, raw_metrics_handler (E := E) path e = ([EvLog ERROR msg], inr []).
Proof. destruct e; simpl; eexists; reflexivity. Qed.

(** With the flag set the visitor is handed the text of the file. *)
Lemma body_with_imports (path code : string) :
  fs path = inr code ->
  cyclomatic_complexity_body fs path true
  = ([EvOpenRead path; EvCcVisit code],
     match cc_visit code with
     | inl e => inl e
     | inr results => inr (map entry_of_block results)
     end).
Proof.
  intros Hr. unfold cyclomatic_complexity_body, open_read, strip_imports, call.
  simpl. rewrite Hr. simpl. now destruct (cc_visit code).
Qed.

(** Without it, the visitor is handed the rendering of the stripped tree. *)
Lemma body_without_imports (path code text : string) (tree : Module_) :
  fs path = inr code ->
  ast_parse code = inr tree ->
  ast_unparse (set_body tree (collect_non_imports (mod_body tree))) = inr text ->
  cyclomatic_complexity_body fs path false
  = ([EvOpenRead path; EvAstParse code;
      EvAstUnparse (set_body tree (collect_non_imports (mod_body tree)));
      EvCcVisit text],
     match cc_visit text with
     | inl e => inl e
     | inr results => inr (map entry_of_block results)
     end).
Proof.
  intros Hr Hp Hu.
  unfold cyclomatic_complexity_body, open_read, strip_imports, call.
  simpl. rewrite Hr. simpl. rewrite Hp. simpl. rewrite Hu. simpl.
  now destruct (cc_visit text).
Qed.

(** The handlers add log records only. *)
Lemma calculate_analysis_events (path : string) (flag : bool) :
  analysis_events (trace (calculate_cyclomatic_complexity (E := E) fs path flag))
  = analysis_events (trace (cyclomatic_complexity_body fs path flag)).
Proof.
  unfold calculate_cyclomatic_complexity, try_except.
  destruct (cyclomatic_complexity_body fs path flag) as [t [e|r]]; simpl;
    [|reflexivity].
  destruct (handler_logs_once path e) as [msg ->]. simpl.
  unfold analysis_events. rewrite filter_app. simpl. now rewrite app_nil_r.
Qed.

(** A successful body is returned as it is. *)
Lemma calculate_of_success (path : string) (flag : bool) (t : list event)
    (r : list entry) :
  cyclomatic_complexity_body fs path flag = (t, inr r) ->
  calculate_cyclomatic_complexity (E := E) fs path flag = (t, inr r).
Proof.
  intros H. unfold calculate_cyclomatic_complexity, try_except. now rewrite H.
Qed.

(** A failed one is turned into the empty list and one error record. *)
Lemma calculate_of_failure (path : string) (flag : bool) (t : list event)
    (e : exception) :
  cyclomatic_complexity_body fs path flag = (t, inl e) ->
  exists msg,
    calculate_cyclomatic_complexity (E := E) fs path flag
    = (t ++ [EvLog ERROR msg], inr []).
Proof.
  intros H. unfold calculate_cyclomatic_complexity, try_except. rewrite H.
  destruct (handler_logs_once path e) as [msg ->]. now exists msg.
Qed.

(** The complexity stage never raises. *)
Lemma calculate_returns (path : string) (flag : bool) :
  exists t r,
    calculate_cyclomatic_complexity (E := E) fs path flag = (t, inr r).
Proof.
  destruct (cyclomatic_complexity_body fs path flag) as [t [e|r]] eqn:H.
  - destruct (calculate_of_failure _ _ _ _ H) as [msg ->]. eauto.
  - rewrite (calculate_of_success _ _ _ _ H). eauto.
Qed.

Lemma raw_of_failure (path : string) (t : list event) (e : exception) :
  raw_metrics_body fs path = (t, inl e) ->
  exists msg,
    calculate_raw_metrics (E := E) fs path = (t ++ [EvLog ERROR msg], inr []).
Proof.
  intros H. unfold calculate_raw_metrics, try_except. rewrite H.
  destruct (raw_handler_logs_once path e) as [msg ->]. now exists msg.
Qed.

Lemma raw_returns (path : string) :
  exists t r, calculate_raw_metrics (E := E) fs path = (t, inr r).
Proof.
  unfold calculate_raw_metrics, try_except.
  destruct (raw_metrics_body fs path) as [t [e|r]]; [|eauto].
  destruct (raw_handler_logs_once path e) as [msg ->]. eauto.
Qed.

End ComplexityStage.

(** ** The import stripper *)

Section Stripper.

Context {ext : Externals}.
Variable fs : filesystem.
Variable E : Type.

(** C1.  With [include_imports] true the text of the file reaches the
    complexity visitor unchanged.  With [include_imports] false and a text
    that parses, the tree handed to [ast.unparse] is the parsed tree whose
    body is the one list that the specification's stripper allows (every
    top-level [Import] and [ImportFrom] removed, all other statements kept
    in order), and the visitor receives the rendering of that tree. *)
Theorem C1_import_stripper (path code : string) :
  fs path = inr code ->
  strip_imports true code = ret code /\
  analysis_events
    (trace (calculate_cyclomatic_complexity (E := E) fs path true))
  = [EvOpenRead path; EvCcVisit code] /\
  forall tree, ast_parse code = inr tree ->
    exists kept,
      StripsImports (mod_body tree) kept /\
      (forall kept', StripsImports (mod_body tree) kept' -> kept' = kept) /\
      kept = filter (fun node => negb (is_import node)) (mod_body tree) /\
      strip_imports false code
      = ([EvAstParse code; EvAstUnparse (set_body tree kept)],
         ast_unparse (set_body tree kept)) /\
      forall text, ast_unparse (set_body tree kept) = inr text ->
        analysis_events
          (trace (calculate_cyclomatic_complexity (E := E) fs path false))
        = [EvOpenRead path; EvAstParse code;
           EvAstUnparse (set_body tree kept); EvCcVisit text].
Proof.
  intros Hr. split; [reflexivity|]. split.
  - rewrite calculate_analysis_events, (body_with_imports _ _ _ Hr). reflexivity.
  - intros tree Hp. exists (collect_non_imports (mod_body tree)).
    split; [apply collect_strips|]. split.
    { intros kept' H. eapply StripsImports_functional; eauto using collect_strips. }
    split; [apply collect_non_imports_filter|]. split.
    + unfold strip_imports, call. simpl. rewrite Hp. simpl.
      now destruct (ast_unparse _).
    + intros text Hu.
      rewrite calculate_analysis_events, (body_without_imports _ _ _ _ _ Hr Hp Hu).
      reflexivity.
Qed.


End Stripper.

Lemma C1_import_stripper_witness :
  Demo.files "m.py" = inr Demo.with_import /\
  ast_parse (Externals := Demo.libraries) Demo.with_import = inr (MkModule [Demo.import_os; Demo.def_f] []) /\
  exists kept,
    StripsImports [Demo.import_os; Demo.def_f] kept /\
    (forall kept', StripsImports [Demo.import_os; Demo.def_f] kept' ->
       kept' = kept) /\
    kept = [Demo.def_f] /\
    strip_imports (ext := Demo.libraries) false Demo.with_import
    = ([EvAstParse Demo.with_import; EvAstUnparse (MkModule kept [])],
       ast_unparse (Externals := Demo.libraries) (MkModule kept [])) /\
    forall text, ast_unparse (Externals := Demo.libraries) (MkModule kept []) = inr text ->
      analysis_events
        (trace (calculate_cyclomatic_complexity (ext := Demo.libraries) (E := system_exit)
                  Demo.files "m.py" false))
      = [EvOpenRead "m.py"; EvAstParse Demo.with_import;
         EvAstUnparse (MkModule kept []); EvCcVisit text].
Proof.
  split; [reflexivity|]. split; [reflexivity|].
  exact (proj2 (proj2 (C1_import_stripper (ext := Demo.libraries) Demo.files
                         system_exit "m.py" Demo.with_import eq_refl))
           (MkModule [Demo.import_os; Demo.def_f] []) eq_refl).
Defined.



(** C9.  With [include_imports] false the entries returned, and so the
    line numbers printed, are the ones radon finds in the rendering of the
    stripped tree.  They can differ from the positions in the file: in
    [m.py] the definition of [f] spans lines 3-4, and it is reported at
    lines 1-2. *)
Theorem C9_line_numbers_of_rendering :
  (forall (ext : Externals) (fs : filesystem) (E : Type) (path code text : string)
          (tree : Module_) (results : list block),
      fs path = inr code ->
      ast_parse code = inr tree ->
      ast_unparse (set_body tree (collect_non_imports (mod_body tree)))
      = inr text ->
      cc_visit text = inr results ->
      calculate_cyclomatic_complexity (E := E) fs path false
      = ([EvOpenRead path; EvAstParse code;
          EvAstUnparse (set_body tree (collect_non_imports (mod_body tree)));
          EvCcVisit text],
         inr (map entry_of_block results))) /\
  (exists (path code : string) (tree : Module_) (name : string)
          (body : list stmt) (pos : position) (complexity first last : Z),
      Demo.files path = inr code /\
      ast_parse (Externals := Demo.libraries) code = inr tree /\
      In (FunctionDef name body pos) (mod_body tree) /\
      outcome (calculate_cyclomatic_complexity (ext := Demo.libraries)
                 (E := system_exit) Demo.files path false)
      = inr [(name, complexity, first, last)] /\
      first <> lineno pos /\ last <> end_lineno pos).
Proof.
  split.
  - intros ext fs E path code text tree results Hr Hp Hu Hv.
    apply calculate_of_success.
    rewrite (body_without_imports _ _ _ _ _ Hr Hp Hu), Hv. reflexivity.
  - exists "m.py", Demo.with_import, (MkModule [Demo.import_os; Demo.def_f] []),
      "f", [Simple "Pass" "pass" (Position 4 4 4 8)], (Position 3 0 4 8), 1, 1, 2.
    repeat split; try reflexivity; try (simpl; lia).
    right; left; reflexivity.
Qed.

Lemma C9_line_numbers_of_rendering_witness :
  calculate_cyclomatic_complexity (ext := Demo.libraries) (E := system_exit)
    Demo.files "plain.py" false
  = ([EvOpenRead "plain.py"; EvAstParse Demo.commented;
      EvAstUnparse (MkModule [Demo.def_f] []); EvCcVisit Demo.rendered],
     inr [("f", 1, 1, 2)]).
Proof.
  exact (proj1 C9_line_numbers_of_rendering Demo.libraries Demo.files
           system_exit "plain.py" Demo.commented Demo.rendered
           (MkModule [Demo.def_f] []) [Block "f" 1 1 2]
           eq_refl eq_refl eq_refl eq_refl).
Defined.

(** ** Traces *)

Lemma stdout_app (t t' : list event) : stdout (t ++ t') = stdout t ++ stdout t'.
Proof. apply flat_map_app. Qed.

Lemma log_records_app (t t' : list event) :
  log_records (t ++ t') = log_records t ++ log_records t'.
Proof. apply flat_map_app. Qed.

Lemma analysis_events_app (t t' : list event) :
  analysis_events (t ++ t') = analysis_events t ++ analysis_events t'.
Proof. apply filter_app. Qed.

Lemma bind_value {E A B} (t : list event) (a : A) (k : A -> M E B) :
  bind (t, inr a) k = (t ++ trace (k a), outcome (k a)).
Proof. unfold bind, trace, outcome. now destruct (k a). Qed.

Lemma bind_ret {E A B} (a : A) (k : A -> M E B) : bind (ret a) k = k a.
Proof. unfold bind, ret. now destruct (k a). Qed.

Lemma bind_returns {E A B} (m : M E A) (a : A) (k : A -> M E B) :
  outcome m = inr a -> bind m k = (trace m ++ trace (k a), outcome (k a)).
Proof. destruct m as [t r]. simpl. intros ->. apply bind_value. Qed.

Lemma for_each_run {E A} (xs : list A) (body : A -> M E unit)
    (out : A -> list event) :
  (forall x, body x = (out x, inr tt)) ->
  for_each xs body = (flat_map out xs, inr tt).
Proof.
  intros H. induction xs as [|x xs IH]; [reflexivity|].
  simpl. rewrite H, bind_value, IH. reflexivity.
Qed.

(** ** The reporter *)

Section Reporter.

Variable E : Type.

(** The events of lines 126-128 for one entry. *)
Lemma report_entry_run (threshold : Z) (e : entry) :
  report_entry (E := E) threshold e
  = (EvPrint (entry_line e)
       :: (if entry_complexity e >? threshold
           then [EvPrint (warning_line threshold)] else []),
     inr tt).
Proof.
  unfold report_entry, print. rewrite bind_value.
  now destruct (entry_complexity e >? threshold).
Qed.

Lemma report_complexity_run (args : Namespace) (results : list entry) :
  report_complexity (E := E) args results
  = (if truthy results then
       EvPrint (fstring ["Code Complexity Analysis for "; filepath args; ":"; nl])
         :: flat_map
              (fun e =>
                 EvPrint (entry_line e)
                   :: (if entry_complexity e >? threshold args
                       then [EvPrint (warning_line (threshold args))] else []))
              results
         ++ [EvPrint nl]
     else [],
     inr tt).
Proof.
  unfold report_complexity. destruct (truthy results); [|reflexivity].
  unfold print. rewrite bind_value.
  rewrite (for_each_run _ _ _ (report_entry_run (threshold args))).
  rewrite bind_value. reflexivity.
Qed.

Lemma report_no_results_run (args : Namespace) (results : list entry) :
  report_no_results (E := E) args results
  = (if negb (truthy results) && negb (report_raw args) then [no_results]
     else [],
     inr tt).
Proof.
  unfold report_no_results.
  now destruct (negb (truthy results) && negb (report_raw args)).
Qed.

(** A line of an entry is never the warning line, nor the raw header. *)
Lemma entry_line_not_warning (threshold : Z) (e : entry) :
  entry_line e <> warning_line threshold.
Proof. destruct e as [[[name c] l] l']. cbn. intros H. discriminate H. Qed.

Lemma entry_line_not_raw_header (e : entry) : entry_line e <> raw_header.
Proof. destruct e as [[[name c] l] l']. cbn. intros H. discriminate H. Qed.

Lemma warning_line_not_raw_header (threshold : Z) :
  warning_line threshold <> raw_header.
Proof. cbn. intros H. discriminate H. Qed.

End Reporter.

Lemma count_warnings_entries (threshold : Z) (results : list entry) :
  count_occ string_dec
    (stdout
       (flat_map
          (fun e =>
             EvPrint (entry_line e)
               :: (if entry_complexity e >? threshold
                   then [EvPrint (warning_line threshold)] else []))
          results))
    (warning_line threshold)
  = List.length (filter (fun e => entry_complexity e >? threshold) results).
Proof.
  induction results as [|e results IH]; [reflexivity|].
  cbn [flat_map]. rewrite stdout_app, count_occ_app, IH.
  cbn [filter]. destruct (entry_complexity e >? threshold); cbn [stdout flat_map app].
  - rewrite count_occ_cons_neq by apply entry_line_not_warning.
    rewrite count_occ_cons_eq by reflexivity. reflexivity.
  - rewrite count_occ_cons_neq by apply entry_line_not_warning. reflexivity.
Qed.

(** C3.  The line of an entry is followed by the warning line exactly when
    the entry's complexity is strictly above the threshold: not at the
    threshold itself, and at the threshold plus one.  In the whole
    complexity report there are as many warning lines as entries above the
    threshold. *)
Theorem C3_warning_iff_exceeds (E : Type) (args : Namespace)
    (results : list entry) :
  (forall e,
      In (warning_line (threshold args))
         (stdout (trace (report_entry (E := E) (threshold args) e)))
      <-> entry_complexity e > threshold args) /\
  (forall e,
      stdout (trace (report_entry (E := E) (threshold args) e))
      = entry_line e
          :: (if entry_complexity e >? threshold args
              then [warning_line (threshold args)] else [])) /\
  (forall name first last,
      stdout (trace (report_entry (E := E) (threshold args)
                       (name, threshold args, first, last)))
      = [entry_line (name, threshold args, first, last)]) /\
  (forall name first last,
      stdout (trace (report_entry (E := E) (threshold args)
                       (name, threshold args + 1, first, last)))
      = [entry_line (name, threshold args + 1, first, last);
         warning_line (threshold args)]) /\
  count_occ string_dec
    (stdout (trace (report_complexity (E := E) args results)))
    (warning_line (threshold args))
  = List.length (filter (fun e => entry_complexity e >? threshold args) results).
Proof.
  assert (Hone : forall e,
      stdout (trace (report_entry (E := E) (threshold args) e))
      = entry_line e
          :: (if entry_complexity e >? threshold args
              then [warning_line (threshold args)] else [])).
  { intros e. rewrite report_entry_run. cbn [trace fst].
    now destruct (entry_complexity e >? threshold args). }
  split; [|split; [exact Hone|split; [|split]]].
  - intros e. rewrite Hone.
    destruct (Z.gtb_spec (entry_complexity e) (threshold args)) as [Hgt|Hle].
    + split; [lia|]. intros _. right; left; reflexivity.
    + split; [|lia]. intros [H|[]].
      now apply entry_line_not_warning in H.
  - intros name first last. rewrite Hone. cbn [entry_complexity].
    rewrite Z.gtb_ltb, (proj2 (Z.ltb_ge _ _)) by lia. reflexivity.
  - intros name first last. rewrite Hone. cbn [entry_complexity].
    rewrite Z.gtb_ltb, (proj2 (Z.ltb_lt _ _)) by lia. reflexivity.
  - rewrite report_complexity_run. cbn [trace fst].
    destruct results as [|e results]; [reflexivity|].
    cbn [truthy]. change (?x :: ?l ++ ?r) with ((x :: l) ++ r).
    rewrite stdout_app. change (EvPrint ?x :: ?l) with ([EvPrint x] ++ l).
    rewrite stdout_app, !count_occ_app, count_warnings_entries.
    cbn -[entry_complexity Z.gtb]. lia.
Qed.

(** ** The whole run *)

Section Run.

Context {ext : Externals}.
Variable fs : filesystem.
Variable E : Type.

(** The two analysis stages print nothing and log errors only. *)
Lemma calculate_prints_nothing (path : string) (flag : bool) :
  stdout (trace (calculate_cyclomatic_complexity (E := E) fs path flag)) = [].
Proof. run_stage; reflexivity. Qed.

Lemma raw_prints_nothing (path : string) :
  stdout (trace (calculate_raw_metrics (E := E) fs path)) = [].
Proof. run_stage; reflexivity. Qed.

Lemma calculate_logs_errors (path : string) (flag : bool) :
  Forall (fun r => fst r = ERROR)
    (log_records (trace (calculate_cyclomatic_complexity (E := E) fs path flag))).
Proof. run_stage; repeat constructor. Qed.

Lemma raw_logs_errors (path : string) :
  Forall (fun r => fst r = ERROR)
    (log_records (trace (calculate_raw_metrics (E := E) fs path))).
Proof. run_stage; repeat constructor. Qed.

(** The raw analyzer is only ever handed what the file holds. *)
Lemma raw_analyzes_the_file (path code : string) :
  In (EvRawAnalyze code) (trace (calculate_raw_metrics (E := E) fs path)) ->
  fs path = inr code.
Proof.
  unfold calculate_raw_metrics, raw_metrics_body, raw_metrics_handler,
    open_read, try_except, bind, call, logging_error, ret.
  destruct (fs path) as [e|text]; split_outcomes; intros H;
    repeat (destruct H as [H|H]; try discriminate H); try contradiction;
    now inversion H.
Qed.

Lemma calculate_never_raw (path code : string) (flag : bool) :
  ~ In (EvRawAnalyze code)
      (trace (calculate_cyclomatic_complexity (E := E) fs path flag)).
Proof.
  run_stage; intros H;
    repeat (destruct H as [H|H]; try discriminate H); contradiction.
Qed.

(** A successful raw stage yields the six counts; a failed one the empty
    dict. *)
Lemma raw_metrics_shape (path : string) :
  exists t, calculate_raw_metrics (E := E) fs path = (t, inr []) \/
  exists metrics,
    calculate_raw_metrics (E := E) fs path
    = (t, inr [ ("sloc", sloc metrics); ("lloc", lloc metrics);
                ("comments", comments metrics); ("multi", multi metrics);
                ("blank", blank metrics);
                ("single_comments", single_comments metrics) ]).
Proof. run_stage; eexists; (left; reflexivity) || (right; eexists; reflexivity). Qed.

(** Lines 131-137 as a trace. *)
Lemma report_raw_metrics_run (args : Namespace) (t : list event)
    (raw_metrics : list (string * Z)) :
  calculate_raw_metrics (E := E) fs (filepath args) = (t, inr raw_metrics) ->
  report_raw_metrics (E := E) fs args
  = (if report_raw args then
       t ++ (if truthy raw_metrics then
               EvPrint raw_header
                 :: flat_map
                      (fun kv =>
                         [EvPrint (fstring ["  - "; fst kv; ": ";
                                            str_of_int (snd kv)])])
                      raw_metrics
                 ++ [EvPrint nl]
             else [])
     else [],
     inr tt).
Proof.
  intros H. unfold report_raw_metrics. destruct (report_raw args); [|reflexivity].
  rewrite H, bind_value. destruct (truthy raw_metrics).
  - unfold print. rewrite bind_value.
    rewrite (for_each_run _ _
               (fun kv => [EvPrint (fstring ["  - "; fst kv; ": ";
                                             str_of_int (snd kv)])])).
    + rewrite bind_value. reflexivity.
    + now intros [metric value].
  - reflexivity.
Qed.

Lemma report_raw_metrics_returns (args : Namespace) :
  outcome (report_raw_metrics (E := E) fs args) = inr tt.
Proof.
  destruct (raw_returns fs E (filepath args)) as (t & r & H).
  now rewrite (report_raw_metrics_run _ _ _ H).
Qed.

(** Lines 121-140 as a trace, once the complexity stage has returned. *)
Lemma analyze_and_report_run (args : Namespace) (t : list event)
    (results : list entry) :
  calculate_cyclomatic_complexity (E := E) fs (filepath args)
    (include_imports args) = (t, inr results) ->
  analyze_and_report (E := E) fs args
  = (t ++ trace (report_complexity (E := E) args results)
       ++ trace (report_raw_metrics (E := E) fs args)
       ++ trace (report_no_results (E := E) args results),
     inr tt).
Proof.
  intros H. unfold analyze_and_report. rewrite H, bind_value.
  rewrite bind_returns with (a := tt) by now rewrite report_complexity_run.
  rewrite bind_returns with (a := tt) by apply report_raw_metrics_returns.
  cbn [trace outcome fst snd]. now rewrite report_no_results_run.
Qed.

End Run.

(** ** Log records of the stages *)

Lemma In_log_records (level : levelname) (msg : string) (t : list event) :
  In (EvLog level msg) t <-> In (level, msg) (log_records t).
Proof.
  unfold log_records. rewrite in_flat_map. split.
  - intros H. exists (EvLog level msg). split; [exact H|now left].
  - intros (ev & Hin & Hev). destruct ev; try contradiction.
    destruct Hev as [Hev|[]]. now inversion Hev; subst.
Qed.

Lemma errors_are_not_info (t : list event) :
  Forall (fun r => fst r = ERROR) (log_records t) -> ~ In no_results t.
Proof.
  intros H Hin. apply In_log_records in Hin.
  rewrite Forall_forall in H. apply H in Hin. discriminate Hin.
Qed.

Lemma entries_log_nothing (threshold : Z) (results : list entry) :
  log_records
    (flat_map
       (fun e =>
          EvPrint (entry_line e)
            :: (if entry_complexity e >? threshold
                then [EvPrint (warning_line threshold)] else []))
       results) = [].
Proof.
  induction results as [|e results IH]; [reflexivity|].
  cbn [flat_map]. rewrite log_records_app, IH.
  now destruct (entry_complexity e >? threshold).
Qed.

Lemma report_complexity_logs_nothing (E : Type) (args : Namespace)
    (results : list entry) :
  log_records (trace (report_complexity (E := E) args results)) = [].
Proof.
  rewrite report_complexity_run. cbn [trace fst].
  destruct (truthy results); [|reflexivity].
  change (?x :: ?l ++ ?r) with ((x :: l) ++ r).
  change (EvPrint ?x :: ?l) with ([EvPrint x] ++ l).
  now rewrite !log_records_app, entries_log_nothing.
Qed.

Lemma metrics_log_nothing (raw_metrics : list (string * Z)) :
  log_records
    (flat_map
       (fun kv =>
          [EvPrint (fstring ["  - "; fst kv; ": "; str_of_int (snd kv)])])
       raw_metrics) = [].
Proof. induction raw_metrics as [|kv rest IH]; [reflexivity|exact IH]. Qed.

Section MainRun.

Context {ext : Externals}.
Variable fs : filesystem.

Lemma report_raw_metrics_logs_errors (E : Type) (args : Namespace) :
  Forall (fun r => fst r = ERROR)
    (log_records (trace (report_raw_metrics (E := E) fs args))).
Proof.
  destruct (raw_returns fs E (filepath args)) as (t & r & H).
  erewrite report_raw_metrics_run by exact H. cbn [trace fst].
  destruct (report_raw args); [|constructor].
  rewrite log_records_app. apply Forall_app. split.
  - pose proof (raw_logs_errors fs E (filepath args)) as He.
    now rewrite H in He.
  - destruct (truthy r); [|constructor].
    change (?x :: ?l ++ ?r) with ((x :: l) ++ r).
    change (EvPrint ?x :: ?l) with ([EvPrint x] ++ l).
    rewrite !log_records_app, metrics_log_nothing. constructor.
Qed.

(** The two ways out of the threshold check. *)
Lemma main_accepted (s : supplied) (args : Namespace) :
  setup_argparse (Scanned s) = ret args ->
  0 < threshold args ->
  main fs (Scanned s) = analyze_and_report fs args.
Proof.
  intros Ha Ht. unfold main. rewrite Ha. unfold ret at 1. rewrite bind_value.
  unfold validate_threshold. rewrite (proj2 (Z.leb_gt _ _)) by lia.
  unfold ret. rewrite bind_value. cbn [trace outcome fst snd app].
  now destruct (analyze_and_report fs args).
Qed.

Lemma main_rejected (s : supplied) (args : Namespace) :
  setup_argparse (Scanned s) = ret args ->
  threshold args <= 0 ->
  main fs (Scanned s) = rejected.
Proof.
  intros Ha Ht. unfold main. rewrite Ha. unfold ret at 1. rewrite bind_value.
  unfold validate_threshold. rewrite (proj2 (Z.leb_le _ _)) by lia.
  reflexivity.
Qed.

(** How each stage answers a failing call. *)
Lemma complexity_stage_read_fails (E : Type) (path : string) (flag : bool)
    (e : exception) :
  fs path = inl e ->
  calculate_cyclomatic_complexity (E := E) fs path flag
  = ([EvOpenRead path; EvLog ERROR (complexity_error_message path e)], inr []).
Proof.
  intros Hr. unfold calculate_cyclomatic_complexity, cyclomatic_complexity_body,
    open_read, call, bind, try_except. rewrite Hr. now destruct e.
Qed.

Lemma complexity_stage_visit_fails (E : Type) (path code : string)
    (e : exception) :
  fs path = inr code ->
  cc_visit code = inl e ->
  calculate_cyclomatic_complexity (E := E) fs path true
  = ([EvOpenRead path; EvCcVisit code;
      EvLog ERROR (complexity_error_message path e)], inr []).
Proof.
  intros Hr Hv. unfold calculate_cyclomatic_complexity, try_except.
  rewrite (body_with_imports _ _ _ Hr), Hv. now destruct e.
Qed.

Lemma complexity_stage_parse_fails (E : Type) (path code : string)
    (e : exception) :
  fs path = inr code ->
  ast_parse code = inl e ->
  calculate_cyclomatic_complexity (E := E) fs path false
  = ([EvOpenRead path; EvAstParse code;
      EvLog ERROR (complexity_error_message path e)], inr []).
Proof.
  intros Hr Hp. unfold calculate_cyclomatic_complexity,
    cyclomatic_complexity_body, strip_imports, open_read, call, bind,
    try_except. rewrite Hr. cbn. rewrite Hp. now destruct e.
Qed.

Lemma complexity_stage_unparse_fails (E : Type) (path code : string)
    (tree : Module_) (e : exception) :
  fs path = inr code ->
  ast_parse code = inr tree ->
  ast_unparse (set_body tree (collect_non_imports (mod_body tree))) = inl e ->
  calculate_cyclomatic_complexity (E := E) fs path false
  = ([EvOpenRead path; EvAstParse code;
      EvAstUnparse (set_body tree (collect_non_imports (mod_body tree)));
      EvLog ERROR (complexity_error_message path e)], inr []).
Proof.
  intros Hr Hp Hu. unfold calculate_cyclomatic_complexity,
    cyclomatic_complexity_body, strip_imports, open_read, call, bind,
    try_except. rewrite Hr. cbn. rewrite Hp. cbn. rewrite Hu. now destruct e.
Qed.

Lemma complexity_stage_visit_of_rendering_fails (E : Type)
    (path code text : string) (tree : Module_) (e : exception) :
  fs path = inr code ->
  ast_parse code = inr tree ->
  ast_unparse (set_body tree (collect_non_imports (mod_body tree))) = inr text ->
  cc_visit text = inl e ->
  calculate_cyclomatic_complexity (E := E) fs path false
  = ([EvOpenRead path; EvAstParse code;
      EvAstUnparse (set_body tree (collect_non_imports (mod_body tree)));
      EvCcVisit text;
      EvLog ERROR (complexity_error_message path e)], inr []).
Proof.
  intros Hr Hp Hu Hv. unfold calculate_cyclomatic_complexity, try_except.
  rewrite (body_without_imports _ _ _ _ _ Hr Hp Hu), Hv. now destruct e.
Qed.

Lemma raw_stage_read_fails (E : Type) (path : string) (e : exception) :
  fs path = inl e ->
  calculate_raw_metrics (E := E) fs path
  = ([EvOpenRead path; EvLog ERROR (raw_error_message path e)], inr []).
Proof.
  intros Hr. unfold calculate_raw_metrics, raw_metrics_body, open_read, call,
    bind, try_except. rewrite Hr. now destruct e.
Qed.

Lemma raw_stage_analyze_fails (E : Type) (path code : string) (e : exception) :
  fs path = inr code ->
  raw_analyze code = inl e ->
  calculate_raw_metrics (E := E) fs path
  = ([EvOpenRead path; EvRawAnalyze code;
      EvLog ERROR (raw_error_message path e)], inr []).
Proof.
  intros Hr Ha. unfold calculate_raw_metrics, raw_metrics_body, open_read, call,
    bind, try_except. rewrite Hr. cbn. rewrite Ha. now destruct e.
Qed.

(** What a stage logs is in the log of the run. *)
Lemma stage_logs_reach_the_run (s : supplied) (args : Namespace)
    (r : levelname * string) :
  setup_argparse (Scanned s) = ret args ->
  0 < threshold args ->
  In r (log_records
          (trace (calculate_cyclomatic_complexity (E := system_exit) fs
                    (filepath args) (include_imports args))))
  \/ (report_raw args = true /\
      In r (log_records
              (trace (calculate_raw_metrics (E := system_exit) fs
                        (filepath args))))) ->
  In r (log_records (trace (main fs (Scanned s)))).
Proof.
  intros Ha Ht Hin. rewrite (main_accepted _ _ Ha Ht).
  destruct (calculate_returns fs system_exit (filepath args)
              (include_imports args)) as (t & res & H).
  erewrite analyze_and_report_run by exact H. cbn [trace fst].
  rewrite H in Hin. cbn [trace fst] in Hin.
  rewrite !log_records_app, !in_app_iff.
  destruct Hin as [Hin|[Hraw Hin]]; [now left|].
  right; right; left.
  destruct (raw_returns fs system_exit (filepath args)) as (t' & r' & H').
  erewrite report_raw_metrics_run by exact H'. rewrite Hraw.
  rewrite H' in Hin. cbn [trace fst] in *.
  rewrite log_records_app, in_app_iff. now left.
Qed.

(** C2.  Whichever call of an analysis stage fails (reading the file,
    [ast.parse], [ast.unparse], radon's visitor, radon's raw analyzer),
    the stage stops there, logs one error record worded by the class of
    the exception, and returns the empty list or the empty dict.  The
    record is in the log of the run, and once the threshold is accepted
    the process ends with status 0 whatever the stages met. *)
Theorem C2_analysis_errors_are_recovered (s : supplied) (args : Namespace) :
  setup_argparse (Scanned s) = ret args ->
  0 < threshold args ->
  outcome (main fs (Scanned s)) = inr tt /\
  exit_code (main fs (Scanned s)) = 0 /\
  (forall r,
      In r (log_records
              (trace (calculate_cyclomatic_complexity (E := system_exit) fs
                        (filepath args) (include_imports args))))
      \/ (report_raw args = true /\
          In r (log_records
                  (trace (calculate_raw_metrics (E := system_exit) fs
                            (filepath args))))) ->
      In r (log_records (trace (main fs (Scanned s))))) /\
  (forall path flag e,
      fs path = inl e ->
      calculate_cyclomatic_complexity (E := system_exit) fs path flag
      = ([EvOpenRead path; EvLog ERROR (complexity_error_message path e)],
         inr [])) /\
  (forall path code e,
      fs path = inr code ->
      cc_visit code = inl e ->
      calculate_cyclomatic_complexity (E := system_exit) fs path true
      = ([EvOpenRead path; EvCcVisit code;
          EvLog ERROR (complexity_error_message path e)], inr [])) /\
  (forall path code e,
      fs path = inr code ->
      ast_parse code = inl e ->
      calculate_cyclomatic_complexity (E := system_exit) fs path false
      = ([EvOpenRead path; EvAstParse code;
          EvLog ERROR (complexity_error_message path e)], inr [])) /\
  (forall path code tree e,
      fs path = inr code ->
      ast_parse code = inr tree ->
      ast_unparse (set_body tree (collect_non_imports (mod_body tree)))
      = inl e ->
      calculate_cyclomatic_complexity (E := system_exit) fs path false
      = ([EvOpenRead path; EvAstParse code;
          EvAstUnparse (set_body tree (collect_non_imports (mod_body tree)));
          EvLog ERROR (complexity_error_message path e)], inr [])) /\
  (forall path code text tree e,
      fs path = inr code ->
      ast_parse code = inr tree ->
      ast_unparse (set_body tree (collect_non_imports (mod_body tree)))
      = inr text ->
      cc_visit text = inl e ->
      calculate_cyclomatic_complexity (E := system_exit) fs path false
      = ([EvOpenRead path; EvAstParse code;
          EvAstUnparse (set_body tree (collect_non_imports (mod_body tree)));
          EvCcVisit text;
          EvLog ERROR (complexity_error_message path e)], inr [])) /\
  (forall path e,
      fs path = inl e ->
      calculate_raw_metrics (E := system_exit) fs path
      = ([EvOpenRead path; EvLog ERROR (raw_error_message path e)], inr [])) /\
  (forall path code e,
      fs path = inr code ->
      raw_analyze code = inl e ->
      calculate_raw_metrics (E := system_exit) fs path
      = ([EvOpenRead path; EvRawAnalyze code;
          EvLog ERROR (raw_error_message path e)], inr [])).
Proof.
  intros Ha Ht.
  assert (Hmain : outcome (main fs (Scanned s)) = inr tt).
  { rewrite (main_accepted _ _ Ha Ht).
    destruct (calculate_returns fs system_exit (filepath args)
                (include_imports args)) as (t & r & H).
    now erewrite analyze_and_report_run by exact H. }
  split; [exact Hmain|]. split; [unfold exit_code; now rewrite Hmain|].
  split; [intros r; now apply stage_logs_reach_the_run|].
  split; [intros path flag e; apply complexity_stage_read_fails|].
  split; [intros path code e; apply complexity_stage_visit_fails|].
  split; [intros path code e; apply complexity_stage_parse_fails|].
  split; [intros path code tree e; apply complexity_stage_unparse_fails|].
  split; [intros path code text tree e;
          apply complexity_stage_visit_of_rendering_fails|].
  split; [intros path e; apply raw_stage_read_fails|].
  intros path code e; apply raw_stage_analyze_fails.
Qed.

(** C4.  A threshold of zero or less ends the process with status 1 after
    one error record; nothing is read, analyzed or printed.  When
    [--threshold] is absent from the command line the threshold is 10. *)
Theorem C4_threshold_validation (s : supplied) (args : Namespace) :
  setup_argparse (Scanned s) = ret args ->
  (given_threshold s = None -> threshold args = 10) /\
  (threshold args <= 0 ->
   main fs (Scanned s) = rejected /\
   exit_code (main fs (Scanned s)) = 1 /\
   log_records (trace (main fs (Scanned s)))
   = [(ERROR, "Complexity threshold must be a positive integer.")] /\
   analysis_events (trace (main fs (Scanned s))) = [] /\
   stdout (trace (main fs (Scanned s))) = []).
Proof.
  intros Ha. split.
  - intros Hn. unfold setup_argparse, ret in Ha. rewrite Hn in Ha.
    inversion Ha. reflexivity.
  - intros Ht. rewrite (main_rejected _ _ Ha Ht). repeat split.
Qed.

(** C7.  Once the threshold is accepted, the "no results" record is logged
    exactly when the complexity stage returned the empty list and
    [--report-raw] is absent. *)
Theorem C7_no_results_message (s : supplied) (args : Namespace)
    (t : list event) (complexity_results : list entry) :
  setup_argparse (Scanned s) = ret args ->
  0 < threshold args ->
  calculate_cyclomatic_complexity (E := system_exit) fs (filepath args)
    (include_imports args) = (t, inr complexity_results) ->
  In no_results (trace (main fs (Scanned s)))
  <-> complexity_results = [] /\ report_raw args = false.
Proof.
  intros Ha Ht Hc. rewrite (main_accepted _ _ Ha Ht). erewrite analyze_and_report_run by exact Hc.
  cbn [trace fst]. rewrite !in_app_iff, report_no_results_run. cbn [fst].
  split.
  - intros [H|[H|[H|H]]].
    + exfalso. revert H. apply errors_are_not_info.
      pose proof (calculate_logs_errors fs system_exit (filepath args)
                    (include_imports args)) as He.
      now rewrite Hc in He.
    + exfalso. revert H. apply errors_are_not_info.
      rewrite report_complexity_logs_nothing. constructor.
    + exfalso. revert H. apply errors_are_not_info.
      apply report_raw_metrics_logs_errors.
    + destruct complexity_results, (report_raw args); simpl in H;
        try contradiction. now split.
  - intros [-> ->]. right; right; right. now left.
Qed.

End MainRun.

Lemma C2_analysis_errors_are_recovered_witness :
  exit_code (main (ext := Demo.libraries) Demo.files
               (Demo.argv "bad.py" None true false)) = 0 /\
  In (ERROR, "Syntax error in bad.py: invalid syntax (<unknown>, line 1)")
     (log_records (trace (main (ext := Demo.libraries) Demo.files
                            (Demo.argv "bad.py" None true false)))) /\
  In (ERROR, "An unexpected error occurred: SyntaxError at line: 1")
     (log_records (trace (main (ext := Demo.libraries) Demo.files
                            (Demo.argv "bad.py" None true false)))) /\
  calculate_cyclomatic_complexity (ext := Demo.libraries) (E := system_exit)
    Demo.files "bad.py" false
  = ([EvOpenRead "bad.py"; EvAstParse Demo.broken;
      EvLog ERROR "Syntax error in bad.py: invalid syntax (<unknown>, line 1)"],
     inr []) /\
  calculate_raw_metrics (ext := Demo.libraries) (E := system_exit)
    Demo.files "bad.py"
  = ([EvOpenRead "bad.py"; EvRawAnalyze Demo.broken;
      EvLog ERROR "An unexpected error occurred: SyntaxError at line: 1"],
     inr []) /\
  calculate_cyclomatic_complexity (ext := Demo.libraries) (E := system_exit)
    Demo.files "missing.py" false
  = ([EvOpenRead "missing.py"; EvLog ERROR "File not found: missing.py"],
     inr []).
Proof.
  pose proof (C2_analysis_errors_are_recovered (ext := Demo.libraries)
                Demo.files (Supplied "bad.py" None true false)
                (MkNamespace "bad.py" 10 true false) eq_refl eq_refl)
    as (_ & Hexit & Hlog & Hread & _ & Hparse & _ & _ & _ & Hraw).
  pose proof (Hparse "bad.py" Demo.broken
                (SyntaxError "invalid syntax (<unknown>, line 1)")
                eq_refl eq_refl) as Hcc.
  pose proof (Hraw "bad.py" Demo.broken (SyntaxError "SyntaxError at line: 1")
                eq_refl eq_refl) as Hrw.
  split; [exact Hexit|]. split.
  { apply Hlog. left. cbn [filepath include_imports]. rewrite Hcc.
    left. reflexivity. }
  split.
  { apply Hlog. right. split; [reflexivity|]. cbn [filepath]. rewrite Hrw.
    left. reflexivity. }
  split; [exact Hcc|]. split; [exact Hrw|].
  exact (Hread "missing.py" false
           (FileNotFoundError
              "[Errno 2] No such file or directory: 'missing.py'") eq_refl).
Defined.

Lemma C4_threshold_validation_witness :
  exit_code (main (ext := Demo.libraries) Demo.files
               (Demo.argv "m.py" (Some 0) true false)) = 1 /\
  exit_code (main (ext := Demo.libraries) Demo.files
               (Demo.argv "m.py" (Some (-5)) true false)) = 1 /\
  stdout (trace (main (ext := Demo.libraries) Demo.files
                   (Demo.argv "m.py" (Some (-5)) true false))) = [] /\
  threshold (MkNamespace "m.py" 10 false false) = 10.
Proof.
  pose proof (C4_threshold_validation (ext := Demo.libraries) Demo.files
                (Supplied "m.py" (Some 0) true false)
                (MkNamespace "m.py" 0 true false) eq_refl) as [_ H0].
  pose proof (C4_threshold_validation (ext := Demo.libraries) Demo.files
                (Supplied "m.py" (Some (-5)) true false)
                (MkNamespace "m.py" (-5) true false) eq_refl) as [_ H5].
  pose proof (C4_threshold_validation (ext := Demo.libraries) Demo.files
                (Supplied "m.py" None false false)
                (MkNamespace "m.py" 10 false false) eq_refl) as [Hd _].
  specialize (H0 ltac:(simpl; lia)). specialize (H5 ltac:(simpl; lia)).
  split; [apply H0|]. split; [apply H5|]. split; [apply H5|].
  exact (Hd eq_refl).
Defined.

Lemma C7_no_results_message_witness :
  In no_results
     (trace (main (ext := Demo.libraries) Demo.files
               (Demo.argv "empty.py" None false false))).
Proof.
  apply (C7_no_results_message (ext := Demo.libraries) Demo.files
           (Supplied "empty.py" None false false)
           (MkNamespace "empty.py" 10 false false)
           [EvOpenRead "empty.py"; EvAstParse ""; EvAstUnparse (MkModule [] []);
            EvCcVisit ""]
           [] eq_refl eq_refl eq_refl).
  split; reflexivity.
Defined.

Lemma C3_warning_iff_exceeds_witness :
  In (warning_line 10)
     (stdout (trace (report_entry (E := system_exit) 10 ("f", 11, 1, 2)))) /\
  stdout (trace (report_entry (E := system_exit) 10 ("f", 10, 1, 2)))
  = ["  - f (lines 1-2): Complexity = 10"].
Proof.
  pose proof (C3_warning_iff_exceeds system_exit
                (MkNamespace "m.py" 10 false false) []) as (Hiff & _ & Hat & _).
  split.
  - apply (Hiff ("f", 11, 1, 2)). simpl. lia.
  - exact (Hat "f" 1 2).
Defined.

(** ** Traces made of prints *)

Lemma prints_only (t : list event) :
  Forall (fun ev => exists s, ev = EvPrint s) t ->
  analysis_events t = [] /\ log_records t = [].
Proof.
  induction 1 as [|ev t [s ->] _ [IHa IHl]]; [now split|].
  split; [exact IHa|exact IHl].
Qed.

Lemma report_complexity_prints (E : Type) (args : Namespace)
    (results : list entry) :
  Forall (fun ev => exists s, ev = EvPrint s)
    (trace (report_complexity (E := E) args results)).
Proof.
  rewrite report_complexity_run. cbn [trace fst].
  destruct (truthy results); [|constructor].
  constructor; [eauto|]. apply Forall_app. split; [|repeat constructor; eauto].
  apply Forall_flat_map, Forall_forall. intros e _.
  destruct (entry_complexity e >? threshold args); repeat constructor; eauto.
Qed.

Lemma raw_section_skip (before after : list string) :
  Forall (fun s => s <> raw_header) before ->
  raw_section (before ++ after) = raw_section after.
Proof.
  induction 1 as [|s before Hs _ IH]; [reflexivity|].
  cbn [app raw_section]. now rewrite (proj2 (String.eqb_neq _ _) Hs).
Qed.

Lemma raw_section_header (rest : list string) :
  raw_section (raw_header :: rest) = raw_header :: rest.
Proof. cbn [raw_section]. now rewrite String.eqb_refl. Qed.

Lemma report_complexity_has_no_raw_header (E : Type) (args : Namespace)
    (results : list entry) :
  Forall (fun s => s <> raw_header)
    (stdout (trace (report_complexity (E := E) args results))).
Proof.
  rewrite report_complexity_run. cbn [trace fst].
  destruct (truthy results); [|constructor].
  change (?x :: ?l ++ ?r) with ((x :: l) ++ r).
  change (EvPrint ?x :: ?l) with ([EvPrint x] ++ l).
  rewrite !stdout_app. apply Forall_app. split; [apply Forall_app; split|].
  - repeat constructor. cbn. intros H. discriminate H.
  - induction results as [|e results IH]; [constructor|].
    cbn [flat_map]. rewrite stdout_app. apply Forall_app. split; [|exact IH].
    destruct (entry_complexity e >? threshold args); repeat constructor;
      (apply entry_line_not_raw_header || apply warning_line_not_raw_header).
  - repeat constructor. cbn. intros H. discriminate H.
Qed.

Section TwoRuns.

Context {ext : Externals}.

(** The raw part of standard output is what lines 131-137 print. *)
Lemma raw_section_of_report (fs : filesystem) (E : Type) (args : Namespace) :
  raw_section (stdout (trace (report_raw_metrics (E := E) fs args)))
  = stdout (trace (report_raw_metrics (E := E) fs args)).
Proof.
  destruct (raw_returns fs E (filepath args)) as (t & r & H).
  erewrite report_raw_metrics_run by exact H. cbn [trace fst].
  destruct (report_raw args); [|reflexivity].
  pose proof (raw_prints_nothing fs E (filepath args)) as Hn.
  rewrite H in Hn. cbn [trace fst] in Hn. rewrite stdout_app, Hn.
  destruct (truthy r); [|reflexivity].
  cbn [app stdout flat_map]. apply raw_section_header.
Qed.

Lemma raw_section_of_main (fs : filesystem) (s : supplied) (args : Namespace) :
  setup_argparse (Scanned s) = ret args ->
  0 < threshold args ->
  raw_section (stdout (trace (main fs (Scanned s))))
  = stdout (trace (report_raw_metrics (E := system_exit) fs args)).
Proof.
  intros Ha Ht. rewrite (main_accepted _ _ _ Ha Ht).
  destruct (calculate_returns fs system_exit (filepath args)
              (include_imports args)) as (t & r & H).
  erewrite analyze_and_report_run by exact H. cbn [trace fst].
  pose proof (calculate_prints_nothing fs system_exit (filepath args)
                (include_imports args)) as Hn.
  rewrite H in Hn. cbn [trace fst] in Hn.
  rewrite !stdout_app, Hn. cbn [app].
  rewrite raw_section_skip by apply report_complexity_has_no_raw_header.
  rewrite report_no_results_run. cbn [trace fst].
  replace (stdout (if negb (truthy r) && negb (report_raw args)
                   then [no_results] else [])) with (@nil string)
    by now destruct (negb (truthy r) && negb (report_raw args)).
  rewrite app_nil_r. apply raw_section_of_report.
Qed.

Lemma raw_events_of_report (fs : filesystem) (E : Type) (args : Namespace)
    (code : string) :
  In (EvRawAnalyze code) (trace (report_raw_metrics (E := E) fs args)) ->
  fs (filepath args) = inr code.
Proof.
  destruct (raw_returns fs E (filepath args)) as (t & r & H).
  erewrite report_raw_metrics_run by exact H. cbn [trace fst].
  destruct (report_raw args); [|contradiction].
  rewrite in_app_iff. intros [Hin|Hin].
  - apply (raw_analyzes_the_file fs E). now rewrite H.
  - exfalso. destruct (truthy r); [|contradiction].
    destruct Hin as [Hin|Hin]; [discriminate Hin|].
    rewrite in_app_iff, in_flat_map in Hin.
    destruct Hin as [(kv & _ & [Hin|[]])|[Hin|[]]]; discriminate Hin.
Qed.

(** C5.  Every call of the raw analyzer receives the text of the file as
    read; [include_imports] does not enter lines 131-137, and the raw part
    of standard output is the same with and without [--include-imports]. *)
Theorem C5_raw_metrics_ignore_import_flag (fs : filesystem) (path : string)
    (given : option Z) (raw flag : bool) :
  (forall code,
      In (EvRawAnalyze code)
         (trace (main fs (Scanned (Supplied path given raw flag)))) ->
      fs path = inr code) /\
  report_raw_metrics (E := system_exit) fs
    (MkNamespace path (match given with Some n => n | None => 10 end) raw true)
  = report_raw_metrics (E := system_exit) fs
      (MkNamespace path (match given with Some n => n | None => 10 end) raw
         false) /\
  raw_section (stdout (trace (main fs (Scanned (Supplied path given raw true)))))
  = raw_section
      (stdout (trace (main fs (Scanned (Supplied path given raw false))))).
Proof.
  set (th := match given with Some n => n | None => 10 end).
  split; [|split; [reflexivity|]].
  - intros code Hin. destruct (Z_lt_le_dec 0 th) as [Hpos|Hneg].
    + rewrite (main_accepted fs (Supplied path given raw flag)
                 (MkNamespace path th raw flag) eq_refl Hpos) in Hin.
      destruct (calculate_returns fs system_exit path flag) as (t & r & H).
      erewrite analyze_and_report_run in Hin by exact H.
      cbn [trace fst] in Hin. rewrite !in_app_iff in Hin.
      destruct Hin as [Hin|[Hin|[Hin|Hin]]].
      * exfalso. apply (calculate_never_raw fs system_exit path code flag).
        now rewrite H.
      * exfalso. pose proof (report_complexity_prints system_exit
                               (MkNamespace path th raw flag) r) as Hp.
        rewrite Forall_forall in Hp. destruct (Hp _ Hin) as [s Hs].
        discriminate Hs.
      * exact (raw_events_of_report fs system_exit _ code Hin).
      * rewrite report_no_results_run in Hin. cbn [trace fst] in Hin.
        destruct (negb (truthy r) && negb _) in Hin; [|contradiction].
        destruct Hin as [Hin|[]]. discriminate Hin.
    + rewrite (main_rejected fs (Supplied path given raw flag)
                 (MkNamespace path th raw flag) eq_refl Hneg) in Hin.
      destruct Hin as [Hin|[]]. discriminate Hin.
  - destruct (Z_lt_le_dec 0 th) as [Hpos|Hneg].
    + rewrite (raw_section_of_main fs (Supplied path given raw true)
                 (MkNamespace path th raw true) eq_refl Hpos).
      rewrite (raw_section_of_main fs (Supplied path given raw false)
                 (MkNamespace path th raw false) eq_refl Hpos).
      reflexivity.
    + rewrite (main_rejected fs (Supplied path given raw true)
                 (MkNamespace path th raw true) eq_refl Hneg).
      rewrite (main_rejected fs (Supplied path given raw false)
                 (MkNamespace path th raw false) eq_refl Hneg).
      reflexivity.
Qed.

End TwoRuns.

Lemma C5_raw_metrics_ignore_import_flag_witness :
  Demo.files "m.py" = inr Demo.with_import /\
  raw_section
    (stdout (trace (main (ext := Demo.libraries) Demo.files
                      (Demo.argv "m.py" None true true))))
  = raw_section
      (stdout (trace (main (ext := Demo.libraries) Demo.files
                        (Demo.argv "m.py" None true false)))).
Proof.
  pose proof (C5_raw_metrics_ignore_import_flag (ext := Demo.libraries)
                Demo.files "m.py" None true false) as (Hin & _ & Hsame).
  split; [|exact Hsame].
  apply Hin. vm_compute. do 8 right. left. reflexivity.
Defined.

(** ** The file system and the run *)

Section SameFile.

Context {ext : Externals}.
Variables fs fs' : filesystem.

Lemma complexity_stage_same_file (E : Type) (path : string) (flag : bool) :
  fs path = fs' path ->
  calculate_cyclomatic_complexity (E := E) fs path flag
  = calculate_cyclomatic_complexity (E := E) fs' path flag.
Proof.
  intros H.
  unfold calculate_cyclomatic_complexity, cyclomatic_complexity_body, open_read.
  now rewrite H.
Qed.

Lemma raw_stage_same_file (E : Type) (path : string) :
  fs path = fs' path ->
  calculate_raw_metrics (E := E) fs path = calculate_raw_metrics (E := E) fs' path.
Proof.
  intros H. unfold calculate_raw_metrics, raw_metrics_body, open_read.
  now rewrite H.
Qed.

Lemma complexity_stage_opens_path (E : Type) (path p : string) (flag : bool) :
  In (EvOpenRead p)
     (trace (calculate_cyclomatic_complexity (E := E) fs path flag)) ->
  p = path.
Proof.
  run_stage; intros H;
    repeat (destruct H as [H|H]; try discriminate H); try contradiction;
    now inversion H.
Qed.

Lemma raw_stage_opens_path (E : Type) (path p : string) :
  In (EvOpenRead p) (trace (calculate_raw_metrics (E := E) fs path)) ->
  p = path.
Proof.
  run_stage; intros H;
    repeat (destruct H as [H|H]; try discriminate H); try contradiction;
    now inversion H.
Qed.

Lemma analyze_same_file (E : Type) (args : Namespace) :
  fs (filepath args) = fs' (filepath args) ->
  analyze_and_report (E := E) fs args = analyze_and_report (E := E) fs' args.
Proof.
  intros H. unfold analyze_and_report, report_raw_metrics.
  rewrite (complexity_stage_same_file E _ _ H), (raw_stage_same_file E _ H).
  reflexivity.
Qed.

(** X13.  A run looks at the file system at the path named on the command
    line and nowhere else: every file it opens is that one, and two file
    systems that hold the same thing at that path give the same run,
    whatever else they hold. *)
Theorem run_reads_named_file_only (s : supplied) :
  (forall path,
      In (EvOpenRead path) (trace (main fs (Scanned s))) ->
      path = given_filepath s) /\
  (fs (given_filepath s) = fs' (given_filepath s) ->
   main fs (Scanned s) = main fs' (Scanned s)).
Proof.
  split.
  - intros path. unfold main, setup_argparse. rewrite bind_ret.
    set (args := MkNamespace _ _ _ _).
    unfold validate_threshold.
    destruct (threshold args <=? 0);
      [intros [H|[]]; discriminate H|].
    rewrite bind_ret.
    destruct (calculate_returns fs system_exit (filepath args)
                (include_imports args)) as (t & r & H).
    erewrite analyze_and_report_run by exact H. cbn [trace fst].
    rewrite !in_app_iff. intros [Hin|[Hin|[Hin|Hin]]].
    + apply (complexity_stage_opens_path system_exit (filepath args) path
               (include_imports args)). now rewrite H.
    + pose proof (report_complexity_prints system_exit args r) as Hp.
      rewrite Forall_forall in Hp. destruct (Hp _ Hin) as [x Hx].
      discriminate Hx.
    + destruct (raw_returns fs system_exit (filepath args)) as (t' & r' & H').
      erewrite report_raw_metrics_run in Hin by exact H'.
      cbn [trace fst] in Hin.
      destruct (report_raw args); [|contradiction].
      rewrite in_app_iff in Hin. destruct Hin as [Hin|Hin].
      * apply (raw_stage_opens_path system_exit (filepath args) path).
        now rewrite H'.
      * exfalso. destruct (truthy r'); [|contradiction].
        destruct Hin as [Hin|Hin]; [discriminate Hin|].
        rewrite in_app_iff, in_flat_map in Hin.
        destruct Hin as [(kv & _ & [Hin|[]])|[Hin|[]]]; discriminate Hin.
    + rewrite report_no_results_run in Hin. cbn [trace fst] in Hin.
      destruct (negb (truthy r) && negb _) in Hin; [|contradiction].
      destruct Hin as [Hin|[]]. discriminate Hin.
  - intros H. unfold main, setup_argparse.
    rewrite !bind_ret. now rewrite analyze_same_file by exact H.
Qed.

(** C10.  A run of the complexity stage that fails and one that succeeds
    on a file without blocks return the same value, the empty list, and
    the reporter prints nothing for either; the failure shows in the log
    alone, as one error record. *)
Theorem C10_empty_list_hides_failure (E : Type) (path path' : string)
    (flag flag' : bool) (t t' : list event) (e : exception) :
  cyclomatic_complexity_body fs path flag = (t, inl e) ->
  cyclomatic_complexity_body fs path' flag' = (t', inr []) ->
  outcome (calculate_cyclomatic_complexity (E := E) fs path flag) = inr [] /\
  outcome (calculate_cyclomatic_complexity (E := E) fs path' flag') = inr [] /\
  (forall args args' : Namespace,
      stdout (trace (results <-
                       calculate_cyclomatic_complexity (E := E) fs path flag ;;
                     report_complexity args results))
      = stdout (trace (results <-
                         calculate_cyclomatic_complexity (E := E) fs path' flag' ;;
                       report_complexity args' results)) /\
      stdout (trace (results <-
                       calculate_cyclomatic_complexity (E := E) fs path flag ;;
                     report_complexity args results)) = []) /\
  (exists msg,
      log_records (trace (calculate_cyclomatic_complexity (E := E) fs path flag))
      = [(ERROR, msg)]) /\
  log_records (trace (calculate_cyclomatic_complexity (E := E) fs path' flag'))
  = [].
Proof.
  intros Hf Hs.
  destruct (calculate_of_failure fs E _ _ _ _ Hf) as [msg Hc].
  pose proof (calculate_of_success fs E _ _ _ _ Hs) as Hc'.
  assert (Hquiet : forall p f u (r : exception + list entry),
             cyclomatic_complexity_body fs p f = (u, r) ->
             stdout u = [] /\ log_records u = []).
  { intros p f u r. unfold cyclomatic_complexity_body, strip_imports, open_read,
      bind, call, ret. split_outcomes; intros Hu; inversion Hu; now split. }
  destruct (Hquiet _ _ _ _ Hf) as [Hout Hlog].
  destruct (Hquiet _ _ _ _ Hs) as [Hout' Hlog'].
  rewrite Hc, Hc'. cbn [trace outcome fst snd].
  split; [reflexivity|]. split; [reflexivity|]. split; [|split].
  - intros args args'. rewrite !bind_value. cbn [trace fst].
    rewrite !report_complexity_run. cbn [trace fst truthy].
    rewrite !app_nil_r, stdout_app, Hout, Hout'. now split.
  - exists msg. rewrite log_records_app, Hlog. reflexivity.
  - exact Hlog'.
Qed.

End SameFile.

Lemma run_reads_named_file_only_witness :
  main (ext := Demo.libraries) Demo.files (Demo.argv "m.py" None true true)
  = main (ext := Demo.libraries)
      (fun path => if (path =? "m.py")%string then inr Demo.with_import
                   else inr "")
      (Demo.argv "m.py" None true true).
Proof.
  exact (proj2 (run_reads_named_file_only (ext := Demo.libraries) Demo.files
                  (fun path => if (path =? "m.py")%string
                               then inr Demo.with_import else inr "")
                  (Supplied "m.py" None true true)) eq_refl).
Defined.

Lemma C10_empty_list_hides_failure_witness :
  outcome (calculate_cyclomatic_complexity (ext := Demo.libraries)
             (E := system_exit) Demo.files "missing.py" false) = inr [] /\
  outcome (calculate_cyclomatic_complexity (ext := Demo.libraries)
             (E := system_exit) Demo.files "empty.py" false) = inr [].
Proof.
  pose proof (C10_empty_list_hides_failure (ext := Demo.libraries) Demo.files
                system_exit "missing.py" "empty.py" false false
                [EvOpenRead "missing.py"]
                [EvOpenRead "empty.py"; EvAstParse "";
                 EvAstUnparse (MkModule [] []); EvCcVisit ""]
                (FileNotFoundError
                   "[Errno 2] No such file or directory: 'missing.py'")
                eq_refl eq_refl) as (H & H' & _).
  split; [exact H|exact H'].
Defined.

(** * Further properties of the code *)

(** ** The stripping loop *)

(** X2.  Stripping composes: it distributes over the concatenation of two
    statement lists, leaves no top-level import behind, and stripping a
    stripped list changes nothing. *)
Theorem stripping_composes (body body' : list stmt) :
  collect_non_imports (body ++ body')
  = collect_non_imports body ++ collect_non_imports body' /\
  forallb (fun node => negb (is_import node)) (collect_non_imports body) = true /\
  collect_non_imports (collect_non_imports body) = collect_non_imports body.
Proof.
  rewrite !collect_non_imports_filter. split; [apply filter_app|].
  assert (H : forall l, forallb (fun node => negb (is_import node))
                          (filter (fun node => negb (is_import node)) l) = true).
  { intros l. apply forallb_forall. intros node Hin.
    now apply filter_In in Hin. }
  split; [apply H|].
  specialize (H body). rewrite forallb_forall in H.
  induction (filter (fun node => negb (is_import node)) body) as [|n l IH];
    [reflexivity|].
  cbn [filter]. rewrite (H n (or_introl eq_refl)). f_equal.
  apply IH. intros x Hx. apply H. now right.
Qed.

(** ** What reaches the complexity visitor *)

Section VisitorInput.

Context {ext : Externals}.
Variable fs : filesystem.
Variable E : Type.

(** X3.  The visitor is called at most once per run of the stage, and
    only on text that the earlier steps produced without error: with
    [include_imports] the text read from the file, without it the
    rendering of the stripped tree of a text that parsed.  A failed read,
    parse or rendering therefore never reaches radon. *)
Theorem visitor_called_on_produced_text (path : string) (flag : bool)
    (visited : string) :
  In (EvCcVisit visited)
     (trace (calculate_cyclomatic_complexity (E := E) fs path flag)) ->
  (List.length
     (filter (fun ev => match ev with EvCcVisit _ => true | _ => false end)
        (trace (calculate_cyclomatic_complexity (E := E) fs path flag)))
   = 1%nat) /\
  if flag then fs path = inr visited
  else exists code tree,
      fs path = inr code /\ ast_parse code = inr tree /\
      ast_unparse (set_body tree (collect_non_imports (mod_body tree)))
      = inr visited.
Proof.
  unfold calculate_cyclomatic_complexity, cyclomatic_complexity_body,
    cyclomatic_complexity_handler, strip_imports, open_read, try_except, bind,
    call, logging_error, ret.
  destruct (fs path) as [e|code]; [destruct e; simpl; intuition discriminate|].
  destruct flag; simpl.
  - destruct (cc_visit code) as [e|results]; [destruct e|]; simpl;
      intros H; repeat (destruct H as [H|H]; try discriminate H);
      try contradiction; inversion H; subst; now split.
  - destruct (ast_parse code) as [e|tree] eqn:Hp;
      [destruct e; simpl; intuition discriminate|].
    simpl.
    destruct (ast_unparse (set_body tree (collect_non_imports (mod_body tree))))
      as [e|text] eqn:Hu; [destruct e; simpl; intuition discriminate|].
    simpl. destruct (cc_visit text) as [e|results]; [destruct e|]; simpl;
      intros H; repeat (destruct H as [H|H]; try discriminate H);
      try contradiction; inversion H; subst; (split; [reflexivity|]);
      exists code, tree; auto.
Qed.

End VisitorInput.

Lemma visitor_called_on_produced_text_witness :
  Demo.files "m.py" = inr Demo.with_import /\
  List.length
    (filter (fun ev => match ev with EvCcVisit _ => true | _ => false end)
       (trace (calculate_cyclomatic_complexity (ext := Demo.libraries)
                 (E := system_exit) Demo.files "m.py" true)))
  = 1%nat.
Proof.
  pose proof (visitor_called_on_produced_text (ext := Demo.libraries) Demo.files
                system_exit "m.py" true Demo.with_import
                (or_intror (or_introl eq_refl))) as [Hone Hread].
  split; [exact Hread|exact Hone].
Defined.

(** ** The file and the run *)

Lemma reads_of_app (path : string) (t t' : list event) :
  reads_of path (t ++ t') = (reads_of path t + reads_of path t')%nat.
Proof. unfold reads_of. now rewrite filter_app, length_app. Qed.

Lemma reads_of_prints (path : string) (t : list event) :
  Forall (fun ev => exists s, ev = EvPrint s) t -> reads_of path t = 0%nat.
Proof. induction 1 as [|ev t [s ->] _ IH]; [reflexivity|exact IH]. Qed.

Lemma metrics_print (raw_metrics : list (string * Z)) :
  Forall (fun ev => exists s, ev = EvPrint s)
    (flat_map
       (fun kv =>
          [EvPrint (fstring ["  - "; fst kv; ": "; str_of_int (snd kv)])])
       raw_metrics).
Proof.
  apply Forall_flat_map, Forall_forall. intros kv _. repeat constructor. eauto.
Qed.

Section FileAccess.

Context {ext : Externals}.
Variable fs : filesystem.

Lemma complexity_stage_reads_once (E : Type) (path : string) (flag : bool) :
  reads_of path (trace (calculate_cyclomatic_complexity (E := E) fs path flag))
  = 1%nat.
Proof. unfold reads_of. run_stage; now rewrite String.eqb_refl. Qed.

Lemma raw_stage_reads_once (E : Type) (path : string) :
  reads_of path (trace (calculate_raw_metrics (E := E) fs path)) = 1%nat.
Proof. unfold reads_of. run_stage; now rewrite String.eqb_refl. Qed.

Lemma report_raw_metrics_reads (E : Type) (args : Namespace) :
  reads_of (filepath args) (trace (report_raw_metrics (E := E) fs args))
  = if report_raw args then 1%nat else 0%nat.
Proof.
  destruct (raw_returns fs E (filepath args)) as (t & r & H).
  erewrite report_raw_metrics_run by exact H. cbn [trace fst].
  destruct (report_raw args); [|reflexivity].
  pose proof (raw_stage_reads_once E (filepath args)) as H1.
  rewrite H in H1. cbn [trace fst] in H1. rewrite reads_of_app, H1.
  destruct (truthy r); [|reflexivity].
  rewrite reads_of_prints; [reflexivity|].
  constructor; [eauto|]. apply Forall_app. split; [apply metrics_print|].
  repeat constructor. eauto.
Qed.

(** X4.  Once the threshold is accepted, a run opens the file named on the
    command line once for the complexity stage and once more exactly when
    [--report-raw] is given: the file is read twice at most, and the second
    read is independent of the first. *)
Theorem file_is_read_once_per_stage (s : supplied) (args : Namespace) :
  setup_argparse (Scanned s) = ret args ->
  0 < threshold args ->
  reads_of (filepath args) (trace (main fs (Scanned s)))
  = if report_raw args then 2%nat else 1%nat.
Proof.
  intros Ha Ht. rewrite (main_accepted _ _ _ Ha Ht).
  destruct (calculate_returns fs system_exit (filepath args)
              (include_imports args)) as (t & r & H).
  erewrite analyze_and_report_run by exact H. cbn [trace fst].
  pose proof (complexity_stage_reads_once system_exit (filepath args)
                (include_imports args)) as H1.
  rewrite H in H1. cbn [trace fst] in H1.
  rewrite !reads_of_app, H1, report_raw_metrics_reads.
  rewrite (reads_of_prints _ _ (report_complexity_prints system_exit args r)).
  rewrite report_no_results_run. cbn [trace fst].
  destruct (report_raw args), (truthy r); reflexivity.
Qed.

(** X5.  A missing file, once the threshold is accepted: nothing is
    printed, no library is called, and the log holds one "File not found"
    error followed by the "no results" record; with [--report-raw] the
    error is logged twice, once per stage, and the "no results" record is
    not. *)
Theorem missing_file_run (s : supplied) (args : Namespace) (msg : string) :
  setup_argparse (Scanned s) = ret args ->
  0 < threshold args ->
  fs (filepath args) = inl (FileNotFoundError msg) ->
  trace (main fs (Scanned s))
  = if report_raw args then
      [EvOpenRead (filepath args);
       EvLog ERROR (fstring ["File not found: "; filepath args]);
       EvOpenRead (filepath args);
       EvLog ERROR (fstring ["File not found: "; filepath args])]
    else
      [EvOpenRead (filepath args);
       EvLog ERROR (fstring ["File not found: "; filepath args]);
       no_results].
Proof.
  intros Ha Ht Hfs. rewrite (main_accepted _ _ _ Ha Ht).
  assert (Hc : calculate_cyclomatic_complexity (E := system_exit) fs
                 (filepath args) (include_imports args)
               = ([EvOpenRead (filepath args);
                   EvLog ERROR (fstring ["File not found: "; filepath args])],
                  inr [])).
  { unfold calculate_cyclomatic_complexity, cyclomatic_complexity_body,
      open_read, call, bind, try_except. now rewrite Hfs. }
  assert (Hr : calculate_raw_metrics (E := system_exit) fs (filepath args)
               = ([EvOpenRead (filepath args);
                   EvLog ERROR (fstring ["File not found: "; filepath args])],
                  inr [])).
  { unfold calculate_raw_metrics, raw_metrics_body, open_read, call, bind,
      try_except. now rewrite Hfs. }
  erewrite analyze_and_report_run by exact Hc.
  erewrite report_raw_metrics_run by exact Hr.
  rewrite report_complexity_run, report_no_results_run. cbn [trace fst truthy].
  now destruct (report_raw args).
Qed.

End FileAccess.

Lemma file_is_read_once_per_stage_witness :
  reads_of "m.py"
    (trace (main (ext := Demo.libraries) Demo.files
              (Demo.argv "m.py" None true false))) = 2%nat.
Proof.
  exact (file_is_read_once_per_stage (ext := Demo.libraries) Demo.files
           (Supplied "m.py" None true false)
           (MkNamespace "m.py" 10 true false) eq_refl eq_refl).
Defined.

Lemma missing_file_run_witness :
  trace (main (ext := Demo.libraries) Demo.files
           (Demo.argv "missing.py" None false false))
  = [EvOpenRead "missing.py"; EvLog ERROR "File not found: missing.py";
     no_results].
Proof.
  exact (missing_file_run (ext := Demo.libraries) Demo.files
           (Supplied "missing.py" None false false)
           (MkNamespace "missing.py" 10 false false)
           "[Errno 2] No such file or directory: 'missing.py'"
           eq_refl eq_refl eq_refl).
Defined.

(** ** The shape of the report *)

Lemma header_not_warning (path : string) (threshold : Z) :
  complexity_header path <> warning_line threshold.
Proof. cbn. intros H. discriminate H. Qed.

Lemma nl_not_warning (threshold : Z) : nl <> warning_line threshold.
Proof. cbn. intros H. discriminate H. Qed.

Lemma stdout_of_report_complexity (E : Type) (args : Namespace)
    (results : list entry) :
  stdout (trace (report_complexity (E := E) args results))
  = if truthy results then
      complexity_header (filepath args)
        :: flat_map
             (fun e =>
                entry_line e
                  :: (if entry_complexity e >? threshold args
                      then [warning_line (threshold args)] else []))
             results
        ++ [nl]
    else [].
Proof.
  rewrite report_complexity_run. cbn [trace fst].
  destruct (truthy results); [|reflexivity].
  change (?x :: ?l ++ ?r) with ((x :: l) ++ r).
  change (EvPrint ?x :: ?l) with ([EvPrint x] ++ l).
  rewrite !stdout_app. cbn [stdout flat_map app]. f_equal. f_equal.
  induction results as [|e results IH]; [reflexivity|].
  cbn [flat_map]. rewrite stdout_app, IH.
  now destruct (entry_complexity e >? threshold args).
Qed.

(** X6.  Every entry is printed once, in the order in which radon returned
    it: with the warning lines taken out, the complexity report is its
    header, one line per entry in order, and the closing blank. *)
Theorem entries_are_printed_in_order (E : Type) (args : Namespace)
    (results : list entry) :
  results <> [] ->
  filter (fun s => negb (s =? warning_line (threshold args))%string)
    (stdout (trace (report_complexity (E := E) args results)))
  = complexity_header (filepath args) :: map entry_line results ++ [nl].
Proof.
  intros Hne. rewrite stdout_of_report_complexity.
  destruct results as [|e0 rest]; [contradiction|]. cbn [truthy].
  set (results := e0 :: rest). clearbody results.
  cbn [filter].
  rewrite (proj2 (String.eqb_neq _ _) (header_not_warning _ _)). cbn [negb].
  f_equal. rewrite filter_app. cbn [filter].
  rewrite (proj2 (String.eqb_neq _ _) (nl_not_warning _)). cbn [negb].
  f_equal. induction results as [|e results IH]; [reflexivity|].
  cbn [flat_map map app filter].
  rewrite (proj2 (String.eqb_neq _ _) (entry_line_not_warning _ e)). cbn [negb].
  f_equal. rewrite filter_app, IH.
  destruct (entry_complexity e >? threshold args); [|reflexivity].
  cbn [filter]. now rewrite String.eqb_refl.
Qed.

Lemma entries_are_printed_in_order_witness :
  filter (fun s => negb (s =? warning_line 1)%string)
    (stdout (trace (report_complexity (E := system_exit)
                      (MkNamespace "m.py" 1 false false)
                      [("f", 2, 1, 2); ("g", 1, 4, 5)])))
  = [complexity_header "m.py"; entry_line ("f", 2, 1, 2);
     entry_line ("g", 1, 4, 5); nl].
Proof.
  apply (entries_are_printed_in_order system_exit
           (MkNamespace "m.py" 1 false false) [("f", 2, 1, 2); ("g", 1, 4, 5)]).
  discriminate.
Defined.

Lemma count_warnings_report (E : Type) (args : Namespace)
    (results : list entry) :
  count_occ string_dec
    (stdout (trace (report_complexity (E := E) args results)))
    (warning_line (threshold args))
  = List.length
      (filter (fun e => entry_complexity e >? threshold args) results).
Proof.
  rewrite report_complexity_run. cbn [trace fst].
  destruct results as [|e results]; [reflexivity|].
  cbn [truthy]. change (?x :: ?l ++ ?r) with ((x :: l) ++ r).
  rewrite stdout_app. change (EvPrint ?x :: ?l) with ([EvPrint x] ++ l).
  rewrite stdout_app, !count_occ_app, count_warnings_entries.
  cbn -[entry_complexity Z.gtb]. lia.
Qed.

(** X7.  Raising the threshold never adds a warning: for the same results,
    the report under the higher threshold has at most as many warning
    lines as the report under the lower one. *)
Theorem higher_threshold_fewer_warnings (E : Type) (args args' : Namespace)
    (results : list entry) :
  threshold args <= threshold args' ->
  (count_occ string_dec
     (stdout (trace (report_complexity (E := E) args' results)))
     (warning_line (threshold args'))
   <= count_occ string_dec
        (stdout (trace (report_complexity (E := E) args results)))
        (warning_line (threshold args)))%nat.
Proof.
  intros Hle. rewrite !count_warnings_report.
  induction results as [|e results IH]; [apply le_n|].
  cbn [filter].
  destruct (Z.gtb_spec (entry_complexity e) (threshold args'));
    destruct (Z.gtb_spec (entry_complexity e) (threshold args));
    cbn [List.length]; lia.
Qed.

Lemma higher_threshold_fewer_warnings_witness :
  Nat.le
    (count_occ string_dec
       (stdout (trace (report_complexity (E := system_exit)
                         (MkNamespace "m.py" 20 false false)
                         [("f", 12, 1, 9)])))
       (warning_line 20))
    (count_occ string_dec
       (stdout (trace (report_complexity (E := system_exit)
                         (MkNamespace "m.py" 10 false false)
                         [("f", 12, 1, 9)])))
       (warning_line 10)).
Proof.
  apply (higher_threshold_fewer_warnings system_exit
           (MkNamespace "m.py" 10 false false)
           (MkNamespace "m.py" 20 false false) [("f", 12, 1, 9)]).
  simpl. lia.
Defined.

(** ** The raw report and the options *)

Section Options.

Context {ext : Externals}.
Variable fs : filesystem.

Lemma raw_stage_success (E : Type) (path code : string) (metrics : raw_module) :
  fs path = inr code ->
  raw_analyze code = inr metrics ->
  calculate_raw_metrics (E := E) fs path
  = ([EvOpenRead path; EvRawAnalyze code],
     inr [ ("sloc", sloc metrics); ("lloc", lloc metrics);
           ("comments", comments metrics); ("multi", multi metrics);
           ("blank", blank metrics);
           ("single_comments", single_comments metrics) ]).
Proof.
  intros Hr Ha. unfold calculate_raw_metrics, raw_metrics_body, open_read,
    call, bind, try_except. rewrite Hr. cbn. now rewrite Ha.
Qed.

(** X8.  When the file is read and radon analyzes it, [--report-raw]
    prints eight lines: the header, the six counts in the order sloc,
    lloc, comments, multi, blank, single_comments, and a blank.  The total
    line count [loc] that radon also returns is not reported. *)
Theorem raw_report_lines (s : supplied) (args : Namespace) (code : string)
    (metrics : raw_module) :
  setup_argparse (Scanned s) = ret args ->
  0 < threshold args ->
  report_raw args = true ->
  fs (filepath args) = inr code ->
  raw_analyze code = inr metrics ->
  raw_section (stdout (trace (main fs (Scanned s))))
  = [raw_header;
     metric_line "sloc" (sloc metrics);
     metric_line "lloc" (lloc metrics);
     metric_line "comments" (comments metrics);
     metric_line "multi" (multi metrics);
     metric_line "blank" (blank metrics);
     metric_line "single_comments" (single_comments metrics);
     nl].
Proof.
  intros Ha Ht Hraw Hr Hm. rewrite (raw_section_of_main fs _ _ Ha Ht).
  erewrite report_raw_metrics_run
    by exact (raw_stage_success system_exit _ _ _ Hr Hm).
  rewrite Hraw. reflexivity.
Qed.

(** The complexity report does not look at [report_raw]. *)
Lemma report_complexity_options (E : Type) (args args' : Namespace)
    (results : list entry) :
  filepath args = filepath args' ->
  threshold args = threshold args' ->
  report_complexity (E := E) args results
  = report_complexity (E := E) args' results.
Proof. intros Hp Ht. rewrite !report_complexity_run. now rewrite Hp, Ht. Qed.

(** X9.  [--report-raw] only appends: with the other options equal and the
    threshold accepted, standard output with the flag is standard output
    without it followed by the raw report, so the complexity part is never
    changed by asking for raw metrics. *)
Theorem report_raw_only_appends (path : string) (given : option Z)
    (flag : bool) :
  0 < match given with Some n => n | None => 10 end ->
  stdout (trace (main fs (Scanned (Supplied path given true flag))))
  = stdout (trace (main fs (Scanned (Supplied path given false flag))))
    ++ stdout (trace (report_raw_metrics (E := system_exit) fs
                        (MkNamespace path
                           match given with Some n => n | None => 10 end
                           true flag))).
Proof.
  set (th := match given with Some n => n | None => 10 end). intros Ht.
  rewrite (main_accepted fs (Supplied path given true flag)
             (MkNamespace path th true flag) eq_refl Ht).
  rewrite (main_accepted fs (Supplied path given false flag)
             (MkNamespace path th false flag) eq_refl Ht).
  destruct (calculate_returns fs system_exit path flag) as (t & r & H).
  erewrite !analyze_and_report_run by exact H. cbn [trace fst].
  rewrite (report_complexity_options system_exit
             (MkNamespace path th false flag) (MkNamespace path th true flag) r
             eq_refl eq_refl).
  rewrite !report_no_results_run. cbn [trace fst report_raw].
  rewrite andb_false_r.
  replace (trace (report_raw_metrics (E := system_exit) fs
                    (MkNamespace path th false flag))) with (@nil event)
    by reflexivity.
  rewrite !stdout_app. cbn [app].
  replace (stdout (if negb (truthy r) && negb false then [no_results] else []))
    with (@nil string) by now destruct (truthy r).
  cbn [stdout flat_map]. now rewrite !app_nil_r, app_assoc.
Qed.

(** X10.  The threshold decides warnings only: two runs that differ in an
    accepted threshold alone read and analyze the same things in the same
    order and log the same records. *)
Theorem threshold_affects_report_only (path : string) (th th' : Z)
    (raw flag : bool) :
  0 < th -> 0 < th' ->
  analysis_events
    (trace (main fs (Scanned (Supplied path (Some th) raw flag))))
  = analysis_events
      (trace (main fs (Scanned (Supplied path (Some th') raw flag)))) /\
  log_records (trace (main fs (Scanned (Supplied path (Some th) raw flag))))
  = log_records
      (trace (main fs (Scanned (Supplied path (Some th') raw flag)))).
Proof.
  intros Ht Ht'.
  rewrite (main_accepted fs (Supplied path (Some th) raw flag)
             (MkNamespace path th raw flag) eq_refl Ht).
  rewrite (main_accepted fs (Supplied path (Some th') raw flag)
             (MkNamespace path th' raw flag) eq_refl Ht').
  destruct (calculate_returns fs system_exit path flag) as (t & r & H).
  erewrite !analyze_and_report_run by exact H. cbn [trace fst].
  rewrite !report_no_results_run. cbn [trace fst report_raw].
  change (report_raw_metrics fs (MkNamespace path th' raw flag))
    with (report_raw_metrics (E := system_exit) fs
            (MkNamespace path th raw flag)).
  rewrite !analysis_events_app, !log_records_app.
  destruct (prints_only _ (report_complexity_prints system_exit
                             (MkNamespace path th raw flag) r)) as [-> ->].
  destruct (prints_only _ (report_complexity_prints system_exit
                             (MkNamespace path th' raw flag) r)) as [-> ->].
  now split.
Qed.

(** X11.  The "no results" record is only logged by a run that printed
    nothing. *)
Theorem no_results_means_nothing_printed (s : supplied) (args : Namespace) :
  setup_argparse (Scanned s) = ret args ->
  0 < threshold args ->
  In no_results (trace (main fs (Scanned s))) ->
  stdout (trace (main fs (Scanned s))) = [].
Proof.
  intros Ha Ht. rewrite (main_accepted _ _ _ Ha Ht).
  destruct (calculate_returns fs system_exit (filepath args)
              (include_imports args)) as (t & r & H).
  erewrite analyze_and_report_run by exact H. cbn [trace fst].
  pose proof (calculate_logs_errors fs system_exit (filepath args)
                (include_imports args)) as He.
  pose proof (calculate_prints_nothing fs system_exit (filepath args)
                (include_imports args)) as Hn.
  rewrite H in He, Hn. cbn [trace fst] in He, Hn.
  rewrite !in_app_iff, report_no_results_run. cbn [trace fst].
  intros [Hin|[Hin|[Hin|Hin]]].
  - now apply errors_are_not_info in Hin.
  - exfalso. revert Hin. apply errors_are_not_info.
    rewrite report_complexity_logs_nothing. constructor.
  - exfalso. revert Hin. apply errors_are_not_info.
    apply report_raw_metrics_logs_errors.
  - destruct r as [|e r]; [|contradiction]. cbn [truthy negb andb] in *.
    unfold report_raw_metrics.
    destruct (report_raw args); [contradiction|].
    rewrite !stdout_app, Hn. reflexivity.
Qed.

End Options.

Lemma raw_report_lines_witness :
  raw_section
    (stdout (trace (main (ext := Demo.libraries) Demo.files
                      (Demo.argv "m.py" None true false))))
  = [raw_header; "  - sloc: 3"; "  - lloc: 3"; "  - comments: 0";
     "  - multi: 0"; "  - blank: 1"; "  - single_comments: 0"; nl].
Proof.
  exact (raw_report_lines (ext := Demo.libraries) Demo.files
           (Supplied "m.py" None true false) (MkNamespace "m.py" 10 true false)
           Demo.with_import (RawModule 4 3 3 0 0 1 0)
           eq_refl eq_refl eq_refl eq_refl eq_refl).
Defined.

Lemma report_raw_only_appends_witness :
  stdout (trace (main (ext := Demo.libraries) Demo.files
                   (Demo.argv "m.py" None true true)))
  = stdout (trace (main (ext := Demo.libraries) Demo.files
                     (Demo.argv "m.py" None false true)))
    ++ stdout (trace (report_raw_metrics (ext := Demo.libraries)
                        (E := system_exit) Demo.files
                        (MkNamespace "m.py" 10 true true))).
Proof.
  exact (report_raw_only_appends (ext := Demo.libraries) Demo.files "m.py" None
           true eq_refl).
Defined.

Lemma threshold_affects_report_only_witness :
  log_records (trace (main (ext := Demo.libraries) Demo.files
                        (Demo.argv "bad.py" (Some 1) true false)))
  = log_records (trace (main (ext := Demo.libraries) Demo.files
                          (Demo.argv "bad.py" (Some 50) true false))).
Proof.
  exact (proj2 (threshold_affects_report_only (ext := Demo.libraries)
                  Demo.files "bad.py" 1 50 true false eq_refl eq_refl)).
Defined.

Lemma no_results_means_nothing_printed_witness :
  stdout (trace (main (ext := Demo.libraries) Demo.files
                   (Demo.argv "empty.py" None false false))) = [].
Proof.
  apply (no_results_means_nothing_printed (ext := Demo.libraries) Demo.files
           (Supplied "empty.py" None false false)
           (MkNamespace "empty.py" 10 false false) eq_refl eq_refl).
  vm_compute. do 4 right. left. reflexivity.
Defined.
